(** * Kimera-VIO: the pipeline orchestrator ([src/pipeline/Pipeline.cpp])

    A shallow embedding of [VIO::Pipeline]: its flags, its three queues, its
    module and thread handles, and the member functions that drive the
    lifecycle ([spinOnce], [spinSequential], [shutdownWhenFinished],
    [shutdown], [stopThreads], [joinThreads], [resume], the destructor and the
    frontend output callback registered by the constructor).

    Every member function is a computation in a small monad that threads the
    pipeline object, accumulates the trace of observable effects (log lines,
    queue and module calls, thread joins) and can stop on a failed glog
    [CHECK], on a push that blocks, or on an exhausted polling budget. *)

From Stdlib Require Import List String ZArith Bool Lia Btauto.
Import ListNotations.
Open Scope string_scope.
Open Scope list_scope.

Set Implicit Arguments.

(** ** Payloads

    The orchestrator never looks inside the data that flows through it; the
    payload types are the parameters of the development. *)

Class Payloads : Type := {
  StereoImuSyncPacket : Type;
  StatusStereoMeasurements : Type;
  TrackerStatusSummary : Type;
  PreintegratedImuMeasurements : Type;
  ImuAccGyrS : Type;
  Pose3 : Type;
  DisplayInputBase : Type
}.

Definition Timestamp : Type := Z.

(** ** ThreadsafeQueue *)

Module ThreadsafeQueue.

(** Modelled from the spec: [ThreadsafeQueue<T>] is declared in the header
    [kimera-vio/utils/ThreadsafeQueue.h], of which [Pipeline.cpp] only shows
    the calls.  By sections 3, 4.1 and 7 of the specification it is an
    ordered FIFO sequence with a shutdown flag. *)
Record t (T : Type) : Type := mk {
  data_queue_ : list T;
  shutdown_ : bool
}.

Arguments mk {T} _ _.
Arguments data_queue_ {T} _.
Arguments shutdown_ {T} _.

Section Ops.
Context {T : Type}.

(** Modelled from the spec: a push on a shut-down queue is a no-op that
    returns failure; otherwise the item is inserted at the tail. *)
Definition push (q : t T) (new_value : T) : t T * bool :=
  if shutdown_ q then (q, false)
  else (mk (data_queue_ q ++ [new_value]) (shutdown_ q), true).

(** Modelled from the spec: as [push], except that with
    [max_queue_size] or more items inside the caller blocks until a
    consumer frees space or the queue is shut down.  [None] is the
    blocked caller. *)
Definition pushBlockingIfFull (q : t T) (new_value : T)
    (max_queue_size : nat) : option (t T * bool) :=
  if shutdown_ q then Some (q, false)
  else if Nat.ltb (List.length (data_queue_ q)) max_queue_size
       then Some (mk (data_queue_ q ++ [new_value]) (shutdown_ q), true)
       else None.

(** Modelled from the spec: sets the shutdown flag and keeps the
    contents, which consumers may still drain. *)
Definition shutdown (q : t T) : t T := mk (data_queue_ q) true.

(** Modelled from the spec: clears the shutdown flag. *)
Definition resume (q : t T) : t T := mk (data_queue_ q) false.

(** Modelled from the spec: the two non-blocking observers. *)
Definition isShutdown (q : t T) : bool := shutdown_ q.

(** Modelled from the spec: whether nothing is queued. *)
Definition empty (q : t T) : bool :=
  match data_queue_ q with [] => true | _ :: _ => false end.
End Ops.

End ThreadsafeQueue.

(** ** Pipeline modules and worker threads *)

Module PipelineModule.

(** Modelled from the spec: the module base class is declared in the
    header [kimera-vio/pipeline/PipelineModule.h].  The orchestrator only
    reads [isWorking] and [isInitialized] and calls [shutdown] and [spin];
    section 3 of the specification gives the module an atomic
    shutdown-requested flag and an atomic currently-processing flag. *)
Record t : Type := mk {
  is_thread_working_ : bool;
  is_initialized_ : bool;
  shutdown_ : bool
}.

(** Modelled from the spec: true while the unit of work executes. *)
Definition isWorking (m : t) : bool := is_thread_working_ m.

(** Modelled from the spec: true once the stage has initialised. *)
Definition isInitialized (m : t) : bool := is_initialized_ m.

(** Modelled from the spec: requests the run loop to end; nothing else
    changes. *)
Definition shutdown (m : t) : t :=
  mk (is_thread_working_ m) (is_initialized_ m) true.

(** A module as [make_unique] leaves it. *)
Definition fresh : t := mk false false false.

End PipelineModule.

Module Thread.

(** A [std::thread] handle: all the orchestrator asks of it is whether it
    is joinable, and all it does to it is join it. *)
Record t : Type := mk { joinable : bool }.

Definition join (th : t) : t := mk false.

(** A thread just started on a module's [spin]. *)
Definition started : t := mk true.

End Thread.

Inductive ModuleId : Type :=
| DataProvider | Frontend | Backend | Mesher | Lcd | Visualizer | Display.

Inductive QueueId : Type :=
| StereoFrontendInputQueue | BackendInputQueue | DisplayInputQueue.

Inductive ThreadId : Type :=
| BackendThread | FrontendThread | MesherThread | LcdThread
| VisualizerThread.

(** The name [joinThreads] passes to [joinThread] for each handle. *)
Definition thread_name (t : ThreadId) : string :=
  match t with
  | BackendThread => "backend"
  | FrontendThread => "frontend"
  | MesherThread => "mesher"
  | LcdThread => "lcd"
  | VisualizerThread => "visualizer"
  end.

(** The [CHECK]s of the file; a failed one aborts the process. *)
Inductive CheckId : Type :=
| CHECK_camera_params_size
| CHECK_backend_params
| CHECK_output
| CHECK_stereo_imu_sync_packet
| CHECK_data_provider_module
| CHECK_vio_frontend_module
| CHECK_vio_backend_module.

(** glog severities; [VLOG n] is a verbose line of level [n]. *)
Inductive Severity : Type :=
| INFO | WARNING | ERROR | VLOG (n : nat).

(** [shutdown_pipeline_cb_] is a [std::function] owned by the caller; the
    model keeps only which callee was registered. *)
Definition ShutdownPipelineCallback : Type := nat.

(** ** The effect monad *)

(** How a member function ends: it returns, a [CHECK] aborts the process,
    the caller is blocked inside a full queue, or the polling budget given to
    the model ran out before the function returned. *)
Inductive Res (A : Type) : Type :=
| Ret (a : A)
| Abort (c : CheckId)
| Block
| OutOfFuel.

Arguments Ret {A} a.
Arguments Abort {A} c.
Arguments Block {A}.
Arguments OutOfFuel {A}.

Section Monad.
Variables S E : Type.

(** A computation over the object [S] with effects [E]: the outcome, the
    object as it is left, and the effects in the order they happened. *)
Definition M (A : Type) : Type := S -> Res A * S * list E.

Definition ret {A} (a : A) : M A := fun s => (Ret a, s, []).

Definition after {A} (tr : list E) (x : Res A * S * list E)
  : Res A * S * list E :=
  (fst (fst x), snd (fst x), tr ++ snd x).

Definition bind {A B} (m : M A) (k : A -> M B) : M B :=
  fun s =>
    match m s with
    | (Ret a, s1, tr1) => after tr1 (k a s1)
    | (Abort c, s1, tr1) => (Abort c, s1, tr1)
    | (Block, s1, tr1) => (Block, s1, tr1)
    | (OutOfFuel, s1, tr1) => (OutOfFuel, s1, tr1)
    end.

Definition gets {A} (f : S -> A) : M A := fun s => (Ret (f s), s, []).
Definition modify (f : S -> S) : M unit := fun s => (Ret tt, f s, []).
Definition emit (e : E) : M unit := fun s => (Ret tt, s, [e]).
Definition abort {A} (c : CheckId) : M A := fun s => (Abort c, s, []).
Definition block {A} : M A := fun s => (Block, s, []).
Definition out_of_fuel {A} : M A := fun s => (OutOfFuel, s, []).

(** glog's [CHECK(cond)]. *)
Definition CHECK (cond : bool) (c : CheckId) : M unit :=
  if cond then ret tt else abort c.

(** [if (cond) stmt;] *)
Definition when (cond : bool) (m : M unit) : M unit :=
  if cond then m else ret tt.

Definition outcome {A} (x : Res A * S * list E) : Res A := fst (fst x).
Definition final {A} (x : Res A * S * list E) : S := snd (fst x).
Definition trace {A} (x : Res A * S * list E) : list E := snd x.
End Monad.

Arguments ret {S E A} a.
Arguments bind {S E A B} m k.
Arguments gets {S E A} f.
Arguments modify {S E} f.
Arguments emit {S E} e.
Arguments abort {S E A} c.
Arguments block {S E A}.
Arguments out_of_fuel {S E A}.
Arguments CHECK {S E} cond c.
Arguments when {S E} cond m.
Arguments after {S E A} tr x.
Arguments outcome {S E A} x.
Arguments final {S E A} x.
Arguments trace {S E A} x.

Declare Scope monad_scope.
Delimit Scope monad_scope with monad.
Notation "x <- m ;; k" := (bind m (fun x => k))
  (at level 61, m at next level, right associativity) : monad_scope.
Notation "m ;; k" := (bind m (fun _ => k))
  (at level 61, right associativity) : monad_scope.

Definition is_some {A} (o : option A) : bool :=
  match o with Some _ => true | None => false end.

(** ** The pipeline object *)

Module Pipeline.
Section WithPayloads.
Context `{Payloads}.

(** Of the last keyframe's stereo frame the orchestrator reads only the
    timestamp. *)
Record StereoFrame : Type := mkStereoFrame { timestamp_ : Timestamp }.

Definition getTimestamp (f : StereoFrame) : Timestamp := timestamp_ f.

(** What the frontend hands to its output callbacks. *)
Record FrontendOutput : Type := mkFrontendOutput {
  is_keyframe_ : bool;
  status_stereo_measurements_ : StatusStereoMeasurements;
  tracker_status_ : TrackerStatusSummary;
  relative_pose_body_stereo_ : Pose3;
  stereo_frame_lkf_ : StereoFrame;
  pim_ : PreintegratedImuMeasurements;
  imu_acc_gyrs_ : ImuAccGyrS
}.

(** [BackendInput], with the fields in the order of the constructor call in
    the frontend output callback. *)
Record BackendInput : Type := mkBackendInput {
  timestamp_kf_nsec_ : Timestamp;
  status_stereo_measurements_kf_ : StatusStereoMeasurements;
  stereo_tracking_status_ : TrackerStatusSummary;
  pim_kf_ : PreintegratedImuMeasurements;
  imu_acc_gyrs_kf_ : ImuAccGyrS;
  stereo_ransac_body_pose_ : Pose3
}.

(** The observable effects of the member functions. *)
Inductive Event : Type :=
| ELog (s : Severity) (msg : string)
| ECallShutdownPipelineCb (cb : ShutdownPipelineCallback)
| EModuleShutdown (m : ModuleId)
| EModuleSpin (m : ModuleId)
| EQueueShutdown (q : QueueId)
| EQueueResume (q : QueueId)
| EPushBlockingIfFull (packet : StereoImuSyncPacket) (max_queue_size : nat)
| EPush (input : BackendInput)
| EThreadJoin (t : ThreadId)
| ESleep (ms : Z).

(** The data members of [Pipeline] that the lifecycle reads or writes.  A
    [unique_ptr] is an [option]: [None] is [nullptr]. *)
Record t : Type := mk {
  parallel_run_ : bool;
  data_provider_module_ : option PipelineModule.t;
  vio_frontend_module_ : option PipelineModule.t;
  stereo_frontend_input_queue_ : ThreadsafeQueue.t StereoImuSyncPacket;
  vio_backend_module_ : option PipelineModule.t;
  backend_input_queue_ : ThreadsafeQueue.t BackendInput;
  mesher_module_ : option PipelineModule.t;
  lcd_module_ : option PipelineModule.t;
  visualizer_module_ : option PipelineModule.t;
  display_input_queue_ : ThreadsafeQueue.t DisplayInputBase;
  display_module_ : option PipelineModule.t;
  shutdown_pipeline_cb_ : option ShutdownPipelineCallback;
  frontend_thread_ : option Thread.t;
  backend_thread_ : option Thread.t;
  mesher_thread_ : option Thread.t;
  lcd_thread_ : option Thread.t;
  visualizer_thread_ : option Thread.t;
  shutdown_ : bool;
  is_backend_ok_ : bool
}.

Definition with_data_provider_module_ (v : option PipelineModule.t) (p : t) : t :=
  mk (parallel_run_ p) v (vio_frontend_module_ p)
     (stereo_frontend_input_queue_ p) (vio_backend_module_ p)
     (backend_input_queue_ p) (mesher_module_ p) (lcd_module_ p)
     (visualizer_module_ p) (display_input_queue_ p) (display_module_ p)
     (shutdown_pipeline_cb_ p) (frontend_thread_ p) (backend_thread_ p)
     (mesher_thread_ p) (lcd_thread_ p) (visualizer_thread_ p) (shutdown_ p)
     (is_backend_ok_ p).

Definition with_vio_frontend_module_ (v : option PipelineModule.t) (p : t) : t :=
  mk (parallel_run_ p) (data_provider_module_ p) v
     (stereo_frontend_input_queue_ p) (vio_backend_module_ p)
     (backend_input_queue_ p) (mesher_module_ p) (lcd_module_ p)
     (visualizer_module_ p) (display_input_queue_ p) (display_module_ p)
     (shutdown_pipeline_cb_ p) (frontend_thread_ p) (backend_thread_ p)
     (mesher_thread_ p) (lcd_thread_ p) (visualizer_thread_ p) (shutdown_ p)
     (is_backend_ok_ p).

Definition with_stereo_frontend_input_queue_ (v : ThreadsafeQueue.t StereoImuSyncPacket) (p : t) : t :=
  mk (parallel_run_ p) (data_provider_module_ p) (vio_frontend_module_ p) v
     (vio_backend_module_ p) (backend_input_queue_ p) (mesher_module_ p)
     (lcd_module_ p) (visualizer_module_ p) (display_input_queue_ p)
     (display_module_ p) (shutdown_pipeline_cb_ p) (frontend_thread_ p)
     (backend_thread_ p) (mesher_thread_ p) (lcd_thread_ p)
     (visualizer_thread_ p) (shutdown_ p) (is_backend_ok_ p).

Definition with_vio_backend_module_ (v : option PipelineModule.t) (p : t) : t :=
  mk (parallel_run_ p) (data_provider_module_ p) (vio_frontend_module_ p)
     (stereo_frontend_input_queue_ p) v (backend_input_queue_ p)
     (mesher_module_ p) (lcd_module_ p) (visualizer_module_ p)
     (display_input_queue_ p) (display_module_ p) (shutdown_pipeline_cb_ p)
     (frontend_thread_ p) (backend_thread_ p) (mesher_thread_ p)
     (lcd_thread_ p) (visualizer_thread_ p) (shutdown_ p) (is_backend_ok_ p).

Definition with_backend_input_queue_ (v : ThreadsafeQueue.t BackendInput) (p : t) : t :=
  mk (parallel_run_ p) (data_provider_module_ p) (vio_frontend_module_ p)
     (stereo_frontend_input_queue_ p) (vio_backend_module_ p) v
     (mesher_module_ p) (lcd_module_ p) (visualizer_module_ p)
     (display_input_queue_ p) (display_module_ p) (shutdown_pipeline_cb_ p)
     (frontend_thread_ p) (backend_thread_ p) (mesher_thread_ p)
     (lcd_thread_ p) (visualizer_thread_ p) (shutdown_ p) (is_backend_ok_ p).

Definition with_mesher_module_ (v : option PipelineModule.t) (p : t) : t :=
  mk (parallel_run_ p) (data_provider_module_ p) (vio_frontend_module_ p)
     (stereo_frontend_input_queue_ p) (vio_backend_module_ p)
     (backend_input_queue_ p) v (lcd_module_ p) (visualizer_module_ p)
     (display_input_queue_ p) (display_module_ p) (shutdown_pipeline_cb_ p)
     (frontend_thread_ p) (backend_thread_ p) (mesher_thread_ p)
     (lcd_thread_ p) (visualizer_thread_ p) (shutdown_ p) (is_backend_ok_ p).

Definition with_lcd_module_ (v : option PipelineModule.t) (p : t) : t :=
  mk (parallel_run_ p) (data_provider_module_ p) (vio_frontend_module_ p)
     (stereo_frontend_input_queue_ p) (vio_backend_module_ p)
     (backend_input_queue_ p) (mesher_module_ p) v (visualizer_module_ p)
     (display_input_queue_ p) (display_module_ p) (shutdown_pipeline_cb_ p)
     (frontend_thread_ p) (backend_thread_ p) (mesher_thread_ p)
     (lcd_thread_ p) (visualizer_thread_ p) (shutdown_ p) (is_backend_ok_ p).

Definition with_visualizer_module_ (v : option PipelineModule.t) (p : t) : t :=
  mk (parallel_run_ p) (data_provider_module_ p) (vio_frontend_module_ p)
     (stereo_frontend_input_queue_ p) (vio_backend_module_ p)
     (backend_input_queue_ p) (mesher_module_ p) (lcd_module_ p) v
     (display_input_queue_ p) (display_module_ p) (shutdown_pipeline_cb_ p)
     (frontend_thread_ p) (backend_thread_ p) (mesher_thread_ p)
     (lcd_thread_ p) (visualizer_thread_ p) (shutdown_ p) (is_backend_ok_ p).

Definition with_display_input_queue_ (v : ThreadsafeQueue.t DisplayInputBase) (p : t) : t :=
  mk (parallel_run_ p) (data_provider_module_ p) (vio_frontend_module_ p)
     (stereo_frontend_input_queue_ p) (vio_backend_module_ p)
     (backend_input_queue_ p) (mesher_module_ p) (lcd_module_ p)
     (visualizer_module_ p) v (display_module_ p) (shutdown_pipeline_cb_ p)
     (frontend_thread_ p) (backend_thread_ p) (mesher_thread_ p)
     (lcd_thread_ p) (visualizer_thread_ p) (shutdown_ p) (is_backend_ok_ p).

Definition with_display_module_ (v : option PipelineModule.t) (p : t) : t :=
  mk (parallel_run_ p) (data_provider_module_ p) (vio_frontend_module_ p)
     (stereo_frontend_input_queue_ p) (vio_backend_module_ p)
     (backend_input_queue_ p) (mesher_module_ p) (lcd_module_ p)
     (visualizer_module_ p) (display_input_queue_ p) v
     (shutdown_pipeline_cb_ p) (frontend_thread_ p) (backend_thread_ p)
     (mesher_thread_ p) (lcd_thread_ p) (visualizer_thread_ p) (shutdown_ p)
     (is_backend_ok_ p).

Definition with_shutdown_pipeline_cb_ (v : option ShutdownPipelineCallback) (p : t) : t :=
  mk (parallel_run_ p) (data_provider_module_ p) (vio_frontend_module_ p)
     (stereo_frontend_input_queue_ p) (vio_backend_module_ p)
     (backend_input_queue_ p) (mesher_module_ p) (lcd_module_ p)
     (visualizer_module_ p) (display_input_queue_ p) (display_module_ p) v
     (frontend_thread_ p) (backend_thread_ p) (mesher_thread_ p)
     (lcd_thread_ p) (visualizer_thread_ p) (shutdown_ p) (is_backend_ok_ p).

Definition with_frontend_thread_ (v : option Thread.t) (p : t) : t :=
  mk (parallel_run_ p) (data_provider_module_ p) (vio_frontend_module_ p)
     (stereo_frontend_input_queue_ p) (vio_backend_module_ p)
     (backend_input_queue_ p) (mesher_module_ p) (lcd_module_ p)
     (visualizer_module_ p) (display_input_queue_ p) (display_module_ p)
     (shutdown_pipeline_cb_ p) v (backend_thread_ p) (mesher_thread_ p)
     (lcd_thread_ p) (visualizer_thread_ p) (shutdown_ p) (is_backend_ok_ p).

Definition with_backend_thread_ (v : option Thread.t) (p : t) : t :=
  mk (parallel_run_ p) (data_provider_module_ p) (vio_frontend_module_ p)
     (stereo_frontend_input_queue_ p) (vio_backend_module_ p)
     (backend_input_queue_ p) (mesher_module_ p) (lcd_module_ p)
     (visualizer_module_ p) (display_input_queue_ p) (display_module_ p)
     (shutdown_pipeline_cb_ p) (frontend_thread_ p) v (mesher_thread_ p)
     (lcd_thread_ p) (visualizer_thread_ p) (shutdown_ p) (is_backend_ok_ p).

Definition with_mesher_thread_ (v : option Thread.t) (p : t) : t :=
  mk (parallel_run_ p) (data_provider_module_ p) (vio_frontend_module_ p)
     (stereo_frontend_input_queue_ p) (vio_backend_module_ p)
     (backend_input_queue_ p) (mesher_module_ p) (lcd_module_ p)
     (visualizer_module_ p) (display_input_queue_ p) (display_module_ p)
     (shutdown_pipeline_cb_ p) (frontend_thread_ p) (backend_thread_ p) v
     (lcd_thread_ p) (visualizer_thread_ p) (shutdown_ p) (is_backend_ok_ p).

Definition with_lcd_thread_ (v : option Thread.t) (p : t) : t :=
  mk (parallel_run_ p) (data_provider_module_ p) (vio_frontend_module_ p)
     (stereo_frontend_input_queue_ p) (vio_backend_module_ p)
     (backend_input_queue_ p) (mesher_module_ p) (lcd_module_ p)
     (visualizer_module_ p) (display_input_queue_ p) (display_module_ p)
     (shutdown_pipeline_cb_ p) (frontend_thread_ p) (backend_thread_ p)
     (mesher_thread_ p) v (visualizer_thread_ p) (shutdown_ p)
     (is_backend_ok_ p).

Definition with_visualizer_thread_ (v : option Thread.t) (p : t) : t :=
  mk (parallel_run_ p) (data_provider_module_ p) (vio_frontend_module_ p)
     (stereo_frontend_input_queue_ p) (vio_backend_module_ p)
     (backend_input_queue_ p) (mesher_module_ p) (lcd_module_ p)
     (visualizer_module_ p) (display_input_queue_ p) (display_module_ p)
     (shutdown_pipeline_cb_ p) (frontend_thread_ p) (backend_thread_ p)
     (mesher_thread_ p) (lcd_thread_ p) v (shutdown_ p) (is_backend_ok_ p).

Definition with_shutdown_ (v : bool) (p : t) : t :=
  mk (parallel_run_ p) (data_provider_module_ p) (vio_frontend_module_ p)
     (stereo_frontend_input_queue_ p) (vio_backend_module_ p)
     (backend_input_queue_ p) (mesher_module_ p) (lcd_module_ p)
     (visualizer_module_ p) (display_input_queue_ p) (display_module_ p)
     (shutdown_pipeline_cb_ p) (frontend_thread_ p) (backend_thread_ p)
     (mesher_thread_ p) (lcd_thread_ p) (visualizer_thread_ p) v
     (is_backend_ok_ p).

Definition with_is_backend_ok_ (v : bool) (p : t) : t :=
  mk (parallel_run_ p) (data_provider_module_ p) (vio_frontend_module_ p)
     (stereo_frontend_input_queue_ p) (vio_backend_module_ p)
     (backend_input_queue_ p) (mesher_module_ p) (lcd_module_ p)
     (visualizer_module_ p) (display_input_queue_ p) (display_module_ p)
     (shutdown_pipeline_cb_ p) (frontend_thread_ p) (backend_thread_ p)
     (mesher_thread_ p) (lcd_thread_ p) (visualizer_thread_ p) (shutdown_ p)
     v.


Definition module_of (m : ModuleId) (p : t) : option PipelineModule.t :=
  match m with
  | DataProvider => data_provider_module_ p
  | Frontend => vio_frontend_module_ p
  | Backend => vio_backend_module_ p
  | Mesher => mesher_module_ p
  | Lcd => lcd_module_ p
  | Visualizer => visualizer_module_ p
  | Display => display_module_ p
  end.

Definition with_module_of (m : ModuleId) (v : option PipelineModule.t)
    (p : t) : t :=
  match m with
  | DataProvider => with_data_provider_module_ v p
  | Frontend => with_vio_frontend_module_ v p
  | Backend => with_vio_backend_module_ v p
  | Mesher => with_mesher_module_ v p
  | Lcd => with_lcd_module_ v p
  | Visualizer => with_visualizer_module_ v p
  | Display => with_display_module_ v p
  end.

Definition thread_of (i : ThreadId) (p : t) : option Thread.t :=
  match i with
  | BackendThread => backend_thread_ p
  | FrontendThread => frontend_thread_ p
  | MesherThread => mesher_thread_ p
  | LcdThread => lcd_thread_ p
  | VisualizerThread => visualizer_thread_ p
  end.

Definition with_thread_of (i : ThreadId) (v : option Thread.t) (p : t)
    : t :=
  match i with
  | BackendThread => with_backend_thread_ v p
  | FrontendThread => with_frontend_thread_ v p
  | MesherThread => with_mesher_thread_ v p
  | LcdThread => with_lcd_thread_ v p
  | VisualizerThread => with_visualizer_thread_ v p
  end.

Definition queue_isShutdown (q : QueueId) (p : t) : bool :=
  match q with
  | StereoFrontendInputQueue =>
      ThreadsafeQueue.isShutdown (stereo_frontend_input_queue_ p)
  | BackendInputQueue => ThreadsafeQueue.isShutdown (backend_input_queue_ p)
  | DisplayInputQueue => ThreadsafeQueue.isShutdown (display_input_queue_ p)
  end.


(** [q.shutdown()] and [q.resume()] on the member queue named [q]. *)
Definition shutdown_queue (q : QueueId) (p : t) : t :=
  match q with
  | StereoFrontendInputQueue =>
      with_stereo_frontend_input_queue_
        (ThreadsafeQueue.shutdown (stereo_frontend_input_queue_ p)) p
  | BackendInputQueue =>
      with_backend_input_queue_
        (ThreadsafeQueue.shutdown (backend_input_queue_ p)) p
  | DisplayInputQueue =>
      with_display_input_queue_
        (ThreadsafeQueue.shutdown (display_input_queue_ p)) p
  end.

Definition resume_queue (q : QueueId) (p : t) : t :=
  match q with
  | StereoFrontendInputQueue =>
      with_stereo_frontend_input_queue_
        (ThreadsafeQueue.resume (stereo_frontend_input_queue_ p)) p
  | BackendInputQueue =>
      with_backend_input_queue_
        (ThreadsafeQueue.resume (backend_input_queue_ p)) p
  | DisplayInputQueue =>
      with_display_input_queue_
        (ThreadsafeQueue.resume (display_input_queue_ p)) p
  end.

(** The module behind a pointer that a [CHECK] has already found non-null. *)
Definition deref (m : option PipelineModule.t) : PipelineModule.t :=
  match m with Some x => x | None => PipelineModule.fresh end.

(** *** What the orchestrator cannot see

    A module's [spin] belongs to the stage behind it, and between two polls
    of [shutdownWhenFinished] the worker threads go on working.  Both are
    parameters: [module_spin m] is what one call of [m]'s [spin] returns
    and does to the pipeline object, [while_asleep n] is what happens to it
    during the [n]-th sleep of the supervisory loop. *)
Variable module_spin : ModuleId -> t -> bool * t.
Variable while_asleep : nat -> t -> t.

Local Open Scope monad_scope.
Local Abbreviation Op := (M t Event).

Definition LOG (s : Severity) (msg : string) : Op unit := emit (ELog s msg).

(** [backend_input_queue_.push(input)] *)
Definition push_backend_input (input : BackendInput) : Op unit :=
  emit (EPush input);;
  modify (fun p =>
    with_backend_input_queue_
      (fst (ThreadsafeQueue.push (backend_input_queue_ p) input)) p).

(** [stereo_frontend_input_queue_.pushBlockingIfFull(packet, max)] *)
Definition pushBlockingIfFull_frontend_input
    (packet : StereoImuSyncPacket) (max_queue_size : nat) : Op bool :=
  emit (EPushBlockingIfFull packet max_queue_size);;
  fun p =>
    match ThreadsafeQueue.pushBlockingIfFull
            (stereo_frontend_input_queue_ p) packet max_queue_size with
    | Some (q, ok) => (Ret ok, with_stereo_frontend_input_queue_ q p, [])
    | None => (Block, p, [])
    end.

Definition queue_shutdown (q : QueueId) : Op unit :=
  emit (EQueueShutdown q);; modify (shutdown_queue q).

Definition queue_resume (q : QueueId) : Op unit :=
  emit (EQueueResume q);; modify (resume_queue q).

(** [m->shutdown()] *)
Definition module_shutdown (m : ModuleId) : Op unit :=
  emit (EModuleShutdown m);;
  modify (fun p =>
    with_module_of m (option_map PipelineModule.shutdown (module_of m p)) p).

(** [m->spin()] *)
Definition spin (m : ModuleId) : Op bool :=
  emit (EModuleSpin m);;
  fun p => (Ret (fst (module_spin m p)), snd (module_spin m p), []).

(** [std::this_thread::sleep_for], the [n]-th of the current call. *)
Definition sleep_for (n : nat) (ms : Z) : Op unit :=
  emit (ESleep ms);; modify (while_asleep n).

(** *** The frontend output callback (the lambda of the constructor) *)

(** [VIO::make_unique<BackendInput>(...)] on the fields of an output. *)
Definition make_BackendInput (output : FrontendOutput) : BackendInput :=
  mkBackendInput (getTimestamp (stereo_frame_lkf_ output))
                 (status_stereo_measurements_ output)
                 (tracker_status_ output)
                 (pim_ output)
                 (imu_acc_gyrs_ output)
                 (relative_pose_body_stereo_ output).

Definition frontend_output_callback (output : option FrontendOutput)
    : Op unit :=
  match output with
  | None => abort CHECK_output
  | Some o =>
      if is_keyframe_ o then
        push_backend_input (make_BackendInput o)
      else
        LOG (VLOG 5)
            "Frontend did not output a keyframe, skipping backend input."
  end.

(** The frontend calls the callback once per output, in output order. *)
Fixpoint frontend_outputs (outputs : list (option FrontendOutput))
    : Op unit :=
  match outputs with
  | [] => ret tt
  | o :: rest => frontend_output_callback o;; frontend_outputs rest
  end.

(** *** [joinThread], [joinThreads], [stopThreads], [shutdown] *)

Definition joinThread (i : ThreadId) : Op unit :=
  thread <- gets (thread_of i);;
  match thread with
  | Some th =>
      LOG (VLOG 1) ("Joining " ++ thread_name i ++ " thread...")%string;;
      if Thread.joinable th then
        emit (EThreadJoin i);;
        modify (with_thread_of i (Some (Thread.join th)));;
        LOG (VLOG 1) ("Joined " ++ thread_name i ++ " thread...")%string
      else
        parallel <- gets parallel_run_;;
        when parallel
          (LOG ERROR (thread_name i ++ " thread is not joinable...")%string)
  | None =>
      LOG WARNING ("No " ++ thread_name i ++ " thread, not joining.")%string
  end.

Definition joinThreads : Op unit :=
  parallel <- gets parallel_run_;;
  when (negb parallel)
    (LOG WARNING
       "Asked to join threads while in sequential mode, this is ok, but should not happen.");;
  LOG (VLOG 1) "Joining threads...";;
  joinThread BackendThread;;
  joinThread FrontendThread;;
  joinThread MesherThread;;
  joinThread LcdThread;;
  joinThread VisualizerThread;;
  LOG (VLOG 1) "All threads joined.".

Definition stopThreads : Op unit :=
  LOG (VLOG 1) "Stopping workers and queues...";;
  queue_shutdown BackendInputQueue;;
  backend <- gets vio_backend_module_;;
  CHECK (is_some backend) CHECK_vio_backend_module;;
  module_shutdown Backend;;
  queue_shutdown StereoFrontendInputQueue;;
  frontend <- gets vio_frontend_module_;;
  CHECK (is_some frontend) CHECK_vio_frontend_module;;
  module_shutdown Frontend;;
  mesher <- gets mesher_module_;;
  when (is_some mesher) (module_shutdown Mesher);;
  lcd <- gets lcd_module_;;
  when (is_some lcd) (module_shutdown Lcd);;
  visualizer <- gets visualizer_module_;;
  when (is_some visualizer) (module_shutdown Visualizer);;
  display <- gets display_module_;;
  when (is_some display)
    (queue_shutdown DisplayInputQueue;; module_shutdown Display);;
  LOG (VLOG 1) "Sent stop flag to all module and queues...".

Definition shutdown : Op unit :=
  already <- gets shutdown_;;
  when already
    (LOG ERROR "Shutdown requested, but Pipeline was already shutdown.");;
  LOG INFO "Shutting down VIO pipeline.";;
  modify (with_shutdown_ true);;
  cb <- gets shutdown_pipeline_cb_;;
  match cb with
  | Some callee =>
      LOG INFO "Calling registered shutdown callbacks...";;
      emit (ECallShutdownPipelineCb callee)
  | None => ret tt
  end;;
  provider <- gets data_provider_module_;;
  CHECK (is_some provider) CHECK_data_provider_module;;
  module_shutdown DataProvider;;
  stopThreads;;
  parallel <- gets parallel_run_;;
  when parallel joinThreads;;
  LOG INFO
    "VIO Pipeline's threads shutdown successfully. VIO Pipeline successful shutdown.".

(** *** The destructor *)

Definition destructor : Op unit :=
  LOG INFO "Pipeline destructor called.";;
  already <- gets shutdown_;;
  if negb already then shutdown
  else LOG INFO "Manual shutdown was requested.".

(** *** [launchThreads] and [resume] *)

Definition launchThreads : Op unit :=
  parallel <- gets parallel_run_;;
  if parallel then
    frontend <- gets vio_frontend_module_;;
    CHECK (is_some frontend) CHECK_vio_frontend_module;;
    modify (with_frontend_thread_ (Some Thread.started));;
    backend <- gets vio_backend_module_;;
    CHECK (is_some backend) CHECK_vio_backend_module;;
    modify (with_backend_thread_ (Some Thread.started));;
    mesher <- gets mesher_module_;;
    when (is_some mesher) (modify (with_mesher_thread_ (Some Thread.started)));;
    lcd <- gets lcd_module_;;
    when (is_some lcd) (modify (with_lcd_thread_ (Some Thread.started)));;
    visualizer <- gets visualizer_module_;;
    when (is_some visualizer)
      (modify (with_visualizer_thread_ (Some Thread.started)));;
    LOG INFO "Pipeline Modules launched (parallel_run set to 1)."
  else
    LOG INFO
      "Pipeline Modules running in sequential mode (parallel_run set to 0).".

Definition resume : Op unit :=
  LOG INFO "Restarting frontend workers and queues...";;
  queue_resume StereoFrontendInputQueue;;
  LOG INFO "Restarting backend workers and queues...";;
  queue_resume BackendInputQueue.

(** *** [spinSequential], [spinOnce], [spinViz] *)

Definition spinSequential : Op unit :=
  frontend <- gets vio_frontend_module_;;
  CHECK (is_some frontend) CHECK_vio_frontend_module;;
  spin Frontend;;
  backend <- gets vio_backend_module_;;
  CHECK (is_some backend) CHECK_vio_backend_module;;
  spin Backend;;
  mesher <- gets mesher_module_;;
  when (is_some mesher) (spin Mesher;; ret tt);;
  lcd <- gets lcd_module_;;
  when (is_some lcd) (spin Lcd;; ret tt);;
  visualizer <- gets visualizer_module_;;
  when (is_some visualizer) (spin Visualizer;; ret tt);;
  display <- gets display_module_;;
  when (is_some display) (spin Display;; ret tt).

Definition spinOnce (stereo_imu_sync_packet : option StereoImuSyncPacket)
    : Op unit :=
  match stereo_imu_sync_packet with
  | None => abort CHECK_stereo_imu_sync_packet
  | Some packet =>
      already <- gets shutdown_;;
      if negb already then
        LOG (VLOG 2) "Push input payload to Frontend.";;
        pushBlockingIfFull_frontend_input packet 5;;
        parallel <- gets parallel_run_;;
        when (negb parallel) spinSequential
      else
        LOG WARNING "Not spinning pipeline as it's been shutdown."
  end.

Definition spinViz : Op bool :=
  display <- gets display_module_;;
  if is_some display then spin Display else ret true.

(** *** [shutdownWhenFinished] *)

(** Modelled from the spec: [Pipeline::isInitialized] is defined in the
    header [Pipeline.h]; the pipeline is initialised once the frontend and
    the backend both are, the two flags the status lines of
    [shutdownWhenFinished] print next to it. *)
Definition isInitialized (p : t) : bool :=
  PipelineModule.isInitialized (deref (vio_frontend_module_ p)) &&
  PipelineModule.isInitialized (deref (vio_backend_module_ p)).

(** Modelled from the spec: [Pipeline::signalBackendFailure], the failure
    callback registered on the backend, is defined in the header
    [Pipeline.h]; it flips the estimator-health flag to false and forces
    nothing. *)
Definition signalBackendFailure : Op unit :=
  modify (with_is_backend_ok_ false).

(** The condition of the [while] loop, as written. *)
Definition loop_condition (p : t) : bool :=
  negb (shutdown_ p) &&
  is_backend_ok_ p &&
  (negb (isInitialized p) ||
   negb (negb (PipelineModule.isWorking (deref (data_provider_module_ p))) &&
         (ThreadsafeQueue.isShutdown (stereo_frontend_input_queue_ p) ||
          ThreadsafeQueue.empty (stereo_frontend_input_queue_ p)) &&
         negb (PipelineModule.isWorking (deref (vio_frontend_module_ p))) &&
         (ThreadsafeQueue.isShutdown (backend_input_queue_ p) ||
          ThreadsafeQueue.empty (backend_input_queue_ p)) &&
         negb (PipelineModule.isWorking (deref (vio_backend_module_ p))) &&
         match mesher_module_ p with
         | Some m => negb (PipelineModule.isWorking m) | None => true
         end &&
         match lcd_module_ p with
         | Some m => negb (PipelineModule.isWorking m) | None => true
         end &&
         match visualizer_module_ p with
         | Some m => negb (PipelineModule.isWorking m) | None => true
         end &&
         (ThreadsafeQueue.isShutdown (display_input_queue_ p) ||
          ThreadsafeQueue.empty (display_input_queue_ p)) &&
         match display_module_ p with
         | Some m => negb (PipelineModule.isWorking m) | None => true
         end)).

(** The status snapshot streamed to [VLOG(1)]. *)
Definition log_status : Op unit :=
  LOG (VLOG 1) "shutdown_, VIO pipeline status".

(** [VLOG_IF(5, module) << ...] *)
Definition VLOG_IF_module (m : ModuleId) (msg : string) : Op unit :=
  present <- gets (module_of m);;
  when (is_some present) (LOG (VLOG 5) msg).

(** The [while] loop.  Each iteration tests the condition, logs, sleeps and,
    in sequential mode, returns [false] from the function ([Some false]).
    [None] is the loop left through its condition.  [fuel] bounds the
    number of times the model goes round again; [n] counts the sleeps. *)
Fixpoint poll (fuel n : nat) (sleep_time_ms : Z) (print_stats : bool)
    : Op (option bool) :=
  continue <- gets loop_condition;;
  if continue then
    log_status;;
    VLOG_IF_module Mesher "Mesher is working? ";;
    VLOG_IF_module Lcd "LoopClosureDetector is working? ";;
    VLOG_IF_module Visualizer "Visualizer is working? ";;
    VLOG_IF_module Display "Visualizer is working? ";;
    when print_stats (LOG INFO "utils::Statistics::Print()");;
    sleep_for n sleep_time_ms;;
    parallel <- gets parallel_run_;;
    if negb parallel then ret (Some false)
    else
      match fuel with
      | O => out_of_fuel
      | S fuel' => poll fuel' (S n) sleep_time_ms print_stats
      end
  else ret None.

Definition shutdownWhenFinished (fuel : nat) (sleep_time_ms : Z)
    (print_stats : bool) : Op bool :=
  LOG INFO "Shutting down VIO pipeline once processing has finished.";;
  provider <- gets data_provider_module_;;
  CHECK (is_some provider) CHECK_data_provider_module;;
  frontend <- gets vio_frontend_module_;;
  CHECK (is_some frontend) CHECK_vio_frontend_module;;
  backend <- gets vio_backend_module_;;
  CHECK (is_some backend) CHECK_vio_backend_module;;
  returned <- poll fuel 0 sleep_time_ms print_stats;;
  match returned with
  | Some finished => ret finished
  | None =>
      LOG INFO
        "Shutting down VIO, reason: input is empty and threads are idle.";;
      log_status;;
      already <- gets shutdown_;;
      when (negb already) shutdown;;
      ret true
  end.

(** *** The constructor *)

(** What the constructor reads of its parameters and of the gflags. *)
Record VioParams : Type := mkVioParams {
  params_parallel_run_ : bool;
  camera_params_size : nat;
  has_backend_params_ : bool
}.

Record Flags : Type := mkFlags {
  FLAGS_visualize : bool;
  FLAGS_viz_type : Z;
  FLAGS_use_lcd : bool
}.

(** [VisualizationType::kMesh2dTo3dSparse], value 0 of [--viz_type]. *)
Definition kMesh2dTo3dSparse : Z := 0.

Definition empty_queue {T : Type} : ThreadsafeQueue.t T :=
  ThreadsafeQueue.mk [] false.

(** Modelled from the spec: the in-class initialisers of [shutdown_] and
    [is_backend_ok_] are in the header [Pipeline.h]; a pipeline starts not
    shut down and with a healthy estimator.  The other members are set by
    the member initialiser list of the constructor. *)
Definition initial (params : VioParams) : t :=
  mk (params_parallel_run_ params) None None empty_queue None empty_queue
     None None None empty_queue None None None None None None None
     false true.

(** The constructor body: which modules are created, and the launch of the
    worker threads.  The callbacks it registers are the static wiring of
    the stages. *)
Definition constructor (params : VioParams) (flags : Flags) : Op unit :=
  CHECK (Nat.eqb (camera_params_size params) 2) CHECK_camera_params_size;;
  modify (with_data_provider_module_ (Some PipelineModule.fresh));;
  modify (with_vio_frontend_module_ (Some PipelineModule.fresh));;
  CHECK (has_backend_params_ params) CHECK_backend_params;;
  modify (with_vio_backend_module_ (Some PipelineModule.fresh));;
  when (Z.eqb (FLAGS_viz_type flags) kMesh2dTo3dSparse)
    (modify (with_mesher_module_ (Some PipelineModule.fresh)));;
  when (FLAGS_visualize flags)
    (modify (with_visualizer_module_ (Some PipelineModule.fresh));;
     modify (with_display_module_ (Some PipelineModule.fresh)));;
  when (FLAGS_use_lcd flags)
    (modify (with_lcd_module_ (Some PipelineModule.fresh)));;
  launchThreads.

(** [Pipeline(params, ...)] *)
Definition new (params : VioParams) (flags : Flags)
    : Res unit * t * list Event :=
  constructor params flags (initial params).

End WithPayloads.
End Pipeline.

(** * Properties *)

(** Every function of the orchestrator that is not a log line. *)
Definition is_effect `{Payloads} (e : Pipeline.Event) : bool :=
  match e with
  | Pipeline.ELog _ _ => false
  | _ => true
  end.

(** The trace without its log lines. *)
Definition effects `{Payloads} (tr : list Pipeline.Event)
    : list Pipeline.Event :=
  filter is_effect tr.

Definition severity_eqb (a b : Severity) : bool :=
  match a, b with
  | INFO, INFO | WARNING, WARNING | ERROR, ERROR => true
  | VLOG n, VLOG m => Nat.eqb n m
  | _, _ => false
  end.

(** The log lines of severity [s] in a trace. *)
Definition logged `{Payloads} (s : Severity) (tr : list Pipeline.Event)
    : list string :=
  flat_map (fun e => match e with
                     | Pipeline.ELog s' msg =>
                         if severity_eqb s s' then [msg] else []
                     | _ => []
                     end) tr.

(** The constructor leaves the three mandatory modules non-null; the member
    functions [CHECK] them before use. *)
Definition has_core_modules `{Payloads} (p : Pipeline.t) : bool :=
  is_some (Pipeline.data_provider_module_ p) &&
  is_some (Pipeline.vio_frontend_module_ p) &&
  is_some (Pipeline.vio_backend_module_ p).

(** Payloads for concrete runs: every payload is a number. *)
Definition numbered_payloads : Payloads :=
  Build_Payloads Z Z Z Z Z Z Z.

(** A frontend output over numbered payloads: every payload and the
    timestamp of its stereo frame carry the number [n]. *)
Definition numbered_output (keyframe : bool) (n : Z)
    : @Pipeline.FrontendOutput numbered_payloads :=
  @Pipeline.mkFrontendOutput numbered_payloads keyframe n n n
    (Pipeline.mkStereoFrame n) n n.

(** ** The lifecycle functions as state transformers

    What [joinThread], [joinThreads], [stopThreads] and [shutdown] leave
    behind and what they emit, written as plain functions of the pipeline
    object; the lemmas [joinThread_run], [joinThreads_run],
    [stopThreads_run] and [shutdown_run] below derive them from the code. *)

Section Summaries.
Context `{Payloads}.
Import Pipeline.

Definition all_threads : list ThreadId :=
  [BackendThread; FrontendThread; MesherThread; LcdThread; VisualizerThread].

(** A handle after [joinThread]: joined if it was joinable. *)
Definition joined (thread : option Thread.t) : option Thread.t :=
  match thread with
  | Some th => if Thread.joinable th then Some (Thread.join th) else Some th
  | None => None
  end.

Definition joinThread_state (i : ThreadId) (p : Pipeline.t) : Pipeline.t :=
  with_thread_of i (joined (thread_of i p)) p.

Definition joinThread_trace (i : ThreadId) (p : Pipeline.t) : list Event :=
  match thread_of i p with
  | Some th =>
      ELog (VLOG 1) ("Joining " ++ thread_name i ++ " thread...")%string ::
      (if Thread.joinable th then
         [EThreadJoin i;
          ELog (VLOG 1) ("Joined " ++ thread_name i ++ " thread...")%string]
       else if parallel_run_ p then
         [ELog ERROR (thread_name i ++ " thread is not joinable...")%string]
       else [])
  | None =>
      [ELog WARNING ("No " ++ thread_name i ++ " thread, not joining.")%string]
  end.

Definition joinThreads_state (p : Pipeline.t) : Pipeline.t :=
  fold_left (fun q i => joinThread_state i q) all_threads p.

Definition joinThreads_trace (p : Pipeline.t) : list Event :=
  (if parallel_run_ p then []
   else [ELog WARNING
           "Asked to join threads while in sequential mode, this is ok, but should not happen."]) ++
  [ELog (VLOG 1) "Joining threads..."] ++
  flat_map (fun i => joinThread_trace i p) all_threads ++
  [ELog (VLOG 1) "All threads joined."].

Definition module_shutdown_state (m : ModuleId) (p : Pipeline.t)
    : Pipeline.t :=
  with_module_of m (option_map PipelineModule.shutdown (module_of m p)) p.

Definition stopThreads_state (p : Pipeline.t) : Pipeline.t :=
  let p1 := module_shutdown_state Backend
              (shutdown_queue BackendInputQueue p) in
  let p2 := module_shutdown_state Frontend
              (shutdown_queue StereoFrontendInputQueue p1) in
  let p3 := module_shutdown_state Visualizer
              (module_shutdown_state Lcd (module_shutdown_state Mesher p2)) in
  if is_some (display_module_ p3)
  then module_shutdown_state Display (shutdown_queue DisplayInputQueue p3)
  else p3.

(** The shutdown call on an optional module, made when it is constructed. *)
Definition if_constructed (m : ModuleId) (p : Pipeline.t) (tr : list Event)
    : list Event :=
  if is_some (module_of m p) then tr else [].

Definition stopThreads_trace (p : Pipeline.t) : list Event :=
  [ELog (VLOG 1) "Stopping workers and queues...";
   EQueueShutdown BackendInputQueue; EModuleShutdown Backend;
   EQueueShutdown StereoFrontendInputQueue; EModuleShutdown Frontend] ++
  if_constructed Mesher p [EModuleShutdown Mesher] ++
  if_constructed Lcd p [EModuleShutdown Lcd] ++
  if_constructed Visualizer p [EModuleShutdown Visualizer] ++
  if_constructed Display p
    [EQueueShutdown DisplayInputQueue; EModuleShutdown Display] ++
  [ELog (VLOG 1) "Sent stop flag to all module and queues..."].

Definition shutdown_state (p : Pipeline.t) : Pipeline.t :=
  let p1 := stopThreads_state
              (module_shutdown_state DataProvider (with_shutdown_ true p)) in
  if parallel_run_ p1 then joinThreads_state p1 else p1.

Definition shutdown_trace (p : Pipeline.t) : list Event :=
  (if shutdown_ p
   then [ELog ERROR "Shutdown requested, but Pipeline was already shutdown."]
   else []) ++
  [ELog INFO "Shutting down VIO pipeline."] ++
  match shutdown_pipeline_cb_ p with
  | Some callee =>
      [ELog INFO "Calling registered shutdown callbacks...";
       ECallShutdownPipelineCb callee]
  | None => []
  end ++
  [EModuleShutdown DataProvider] ++
  stopThreads_trace p ++
  (if parallel_run_ p then joinThreads_trace p else []) ++
  [ELog INFO
     "VIO Pipeline's threads shutdown successfully. VIO Pipeline successful shutdown."].

End Summaries.

(** ** Vocabulary of the statements *)

(** A computation that no pipeline state makes fail the check [c]. *)
Definition cannot_fail {S E A : Type} (c : CheckId) (m : M S E A) : Prop :=
  forall s, outcome (m s) <> Abort c.

(** A computation that leaves [I] true of the object, however it ends. *)
Definition preserves {S E A : Type} (I : S -> Prop) (m : M S E A) : Prop :=
  forall s, I s -> I (final (m s)).

Section Statements.
Context `{Payloads}.
Import Pipeline.

(** A queue after the pushes of [xs], in that order: a queue that is shut
    down takes nothing, an open one takes every item at its tail. *)
Definition delivered {T : Type} (q : ThreadsafeQueue.t T) (xs : list T)
    : ThreadsafeQueue.t T :=
  if ThreadsafeQueue.shutdown_ q then q
  else ThreadsafeQueue.mk (ThreadsafeQueue.data_queue_ q ++ xs) false.

(** The backend inputs of the keyframes among [outputs], in output order. *)
Definition keyframe_inputs (outputs : list FrontendOutput)
    : list BackendInput :=
  map make_BackendInput (filter is_keyframe_ outputs).

(** The output [o] with its keyframe flag set to [b]. *)
Definition marked (b : bool) (o : FrontendOutput) : FrontendOutput :=
  mkFrontendOutput b (status_stereo_measurements_ o) (tracker_status_ o)
    (relative_pose_body_stereo_ o) (stereo_frame_lkf_ o) (pim_ o)
    (imu_acc_gyrs_ o).

(** The effects of [shutdown], step by step. *)
Definition callback_effects (p : Pipeline.t) : list Event :=
  match shutdown_pipeline_cb_ p with
  | Some callee => [ECallShutdownPipelineCb callee]
  | None => []
  end.

Definition stopThreads_effects (p : Pipeline.t) : list Event :=
  [EQueueShutdown BackendInputQueue; EModuleShutdown Backend;
   EQueueShutdown StereoFrontendInputQueue; EModuleShutdown Frontend] ++
  if_constructed Mesher p [EModuleShutdown Mesher] ++
  if_constructed Lcd p [EModuleShutdown Lcd] ++
  if_constructed Visualizer p [EModuleShutdown Visualizer] ++
  if_constructed Display p
    [EQueueShutdown DisplayInputQueue; EModuleShutdown Display].

Definition is_joinable (thread : option Thread.t) : bool :=
  match thread with
  | Some th => Thread.joinable th
  | None => false
  end.

Definition joinThreads_effects (p : Pipeline.t) : list Event :=
  flat_map (fun i => if is_joinable (thread_of i p)
                     then [EThreadJoin i] else [])
           all_threads.

Definition shutdown_effects (p : Pipeline.t) : list Event :=
  callback_effects p ++
  [EModuleShutdown DataProvider] ++
  stopThreads_effects p ++
  (if parallel_run_ p then joinThreads_effects p else []).

(** The stages [spinSequential] drives, in the order it drives them. *)
Definition enabled_stages (p : Pipeline.t) : list ModuleId :=
  [Frontend; Backend] ++
  filter (fun m => is_some (module_of m p)) [Mesher; Lcd; Visualizer; Display].

(** The pipeline after one [spin] of each module of [stages], in order. *)
Definition spun (module_spin : ModuleId -> Pipeline.t -> bool * Pipeline.t)
    (stages : list ModuleId) (p : Pipeline.t) : Pipeline.t :=
  fold_left (fun q m => snd (module_spin m q)) stages p.

(** The pipeline with [packet] at the tail of an open frontend input
    queue. *)
Definition with_packet (packet : StereoImuSyncPacket) (p : Pipeline.t)
    : Pipeline.t :=
  with_stereo_frontend_input_queue_
    (ThreadsafeQueue.mk
       (ThreadsafeQueue.data_queue_ (stereo_frontend_input_queue_ p)
        ++ [packet])
       false) p.

(** *** The supervisory loop *)






(** The log lines of one iteration of the loop. *)
Definition poll_logs (print_stats : bool) (p : Pipeline.t) : list Event :=
  [ELog (VLOG 1) "shutdown_, VIO pipeline status"] ++
  if_constructed Mesher p [ELog (VLOG 5) "Mesher is working? "] ++
  if_constructed Lcd p [ELog (VLOG 5) "LoopClosureDetector is working? "] ++
  if_constructed Visualizer p [ELog (VLOG 5) "Visualizer is working? "] ++
  if_constructed Display p [ELog (VLOG 5) "Visualizer is working? "] ++
  (if print_stats then [ELog INFO "utils::Statistics::Print()"] else []).

(** The pipeline object after [k] sleeps of the loop, the first of them the
    [n]-th of the call. *)
Fixpoint asleep (while_asleep : nat -> Pipeline.t -> Pipeline.t)
    (n k : nat) (p : Pipeline.t) : Pipeline.t :=
  match k with
  | O => p
  | S k' => asleep while_asleep (S n) k' (while_asleep n p)
  end.

(** The trace of [k] iterations of the loop. *)
Fixpoint poll_trace (while_asleep : nat -> Pipeline.t -> Pipeline.t)
    (sleep_time_ms : Z) (print_stats : bool) (n k : nat) (p : Pipeline.t)
    : list Event :=
  match k with
  | O => []
  | S k' =>
      poll_logs print_stats p ++ [ESleep sleep_time_ms] ++
      poll_trace while_asleep sleep_time_ms print_stats (S n) k'
        (while_asleep n p)
  end.

(** *** Calls on a pipeline *)

(** A call of a member function of [Pipeline.cpp], of the failure callback
    or of the frontend output callback. *)
Inductive Call : Type :=
| CallSpinOnce (packet : option StereoImuSyncPacket)
| CallSpinViz
| CallSpinSequential
| CallShutdownWhenFinished (fuel : nat) (sleep_time_ms : Z)
    (print_stats : bool)
| CallShutdown
| CallResume
| CallLaunchThreads
| CallStopThreads
| CallJoinThreads
| CallSignalBackendFailure
| CallFrontendOutput (output : option FrontendOutput)
| CallDestructor.

(** The pipeline object as the call leaves it, whether the call returns,
    aborts or blocks. *)
Definition call (module_spin : ModuleId -> Pipeline.t -> bool * Pipeline.t)
    (while_asleep : nat -> Pipeline.t -> Pipeline.t)
    (c : Call) (p : Pipeline.t) : Pipeline.t :=
  match c with
  | CallSpinOnce packet => final (spinOnce module_spin packet p)
  | CallSpinViz => final (spinViz module_spin p)
  | CallSpinSequential => final (spinSequential module_spin p)
  | CallShutdownWhenFinished fuel ms ps =>
      final (shutdownWhenFinished while_asleep fuel ms ps p)
  | CallShutdown => final (shutdown p)
  | CallResume => final (resume p)
  | CallLaunchThreads => final (launchThreads p)
  | CallStopThreads => final (stopThreads p)
  | CallJoinThreads => final (joinThreads p)
  | CallSignalBackendFailure => final (signalBackendFailure p)
  | CallFrontendOutput output => final (frontend_output_callback output p)
  | CallDestructor => final (destructor p)
  end.

Definition after_calls
    (module_spin : ModuleId -> Pipeline.t -> bool * Pipeline.t)
    (while_asleep : nat -> Pipeline.t -> Pipeline.t)
    (calls : list Call) (p : Pipeline.t) : Pipeline.t :=
  fold_left (fun q c => call module_spin while_asleep c q) calls p.

(** The shutdown flag is set. *)
Definition is_down (p : Pipeline.t) : Prop := shutdown_ p = true.

(** The two lines the destructor logs when it finds the pipeline shut down. *)
Definition destructor_skips_shutdown : list Event :=
  [ELog INFO "Pipeline destructor called.";
   ELog INFO "Manual shutdown was requested."].

(** The sequential frontend-and-backend pipeline at the end of a run: both
    modules initialised, nothing queued, nothing working. *)
Definition finished_sequential_run : Pipeline.t :=
  with_vio_backend_module_ (Some (PipelineModule.mk false true false))
    (with_vio_frontend_module_ (Some (PipelineModule.mk false true false))
       (final (new (mkVioParams false 2 true) (mkFlags false 2 false)))).

(** The frontend-and-backend pipeline in parallel mode, just constructed. *)
Definition parallel_tracking_and_estimation : Pipeline.t :=
  final (new (mkVioParams true 2 true) (mkFlags false 2 false)).

(** The parallel frontend-and-backend pipeline in the middle of [shutdown],
    just after [stopThreads] has shut the backend input queue down: the flag
    is set, the data provider is stopped, and the frontend thread, not yet
    stopped nor joined, can still call its output callbacks. *)
Definition shutting_down : Pipeline.t :=
  shutdown_queue BackendInputQueue
    (module_shutdown_state DataProvider
       (with_shutdown_ true parallel_tracking_and_estimation)).


(** A frontend whose [spin] takes the packet at the head of its input queue,
    next to stages whose [spin] finds nothing to do. *)
Definition consuming_spin (m : ModuleId) (p : Pipeline.t)
    : bool * Pipeline.t :=
  match m with
  | Frontend =>
      (true,
       with_stereo_frontend_input_queue_
         (ThreadsafeQueue.mk
            (tl (ThreadsafeQueue.data_queue_ (stereo_frontend_input_queue_ p)))
            (ThreadsafeQueue.shutdown_ (stereo_frontend_input_queue_ p)))
         p)
  | _ => (true, p)
  end.

(** Worker threads that do nothing while the supervisor sleeps. *)
Definition no_progress (n : nat) (p : Pipeline.t) : Pipeline.t := p.

(** A pipeline with the frontend and the backend only, run sequentially, on
    which the caller registered shutdown callback number 7. *)
Definition tracking_and_estimation_only : Pipeline.t :=
  with_shutdown_pipeline_cb_ (Some 7%nat)
    (final (new (mkVioParams false 2 true) (mkFlags false 2 false))).

(** *** What the constructor builds *)

(** The stage whose [spin] a worker thread runs. *)
Definition thread_module (i : ThreadId) : ModuleId :=
  match i with
  | BackendThread => Backend
  | FrontendThread => Frontend
  | MesherThread => Mesher
  | LcdThread => Lcd
  | VisualizerThread => Visualizer
  end.

(** Whether the gflags ask for the module [m]: the data provider, the
    frontend and the backend are unconditional. *)
Definition enabled_by (flags : Flags) (m : ModuleId) : bool :=
  match m with
  | DataProvider | Frontend | Backend => true
  | Mesher => Z.eqb (FLAGS_viz_type flags) kMesh2dTo3dSparse
  | Lcd => FLAGS_use_lcd flags
  | Visualizer | Display => FLAGS_visualize flags
  end.

(** The worker threads that have a stage to run. *)
Definition threads_of (flags : Flags) : list ThreadId :=
  filter (fun i => enabled_by flags (thread_module i)) all_threads.

(** The worker threads that have none. *)
Definition threads_missing (flags : Flags) : list ThreadId :=
  filter (fun i => negb (enabled_by flags (thread_module i))) all_threads.

(** The warning [joinThread] logs for a null handle. *)
Definition no_thread_warning (i : ThreadId) : string :=
  ("No " ++ thread_name i ++ " thread, not joining.")%string.

(** The error [joinThread] logs in parallel mode for a handle that is not
    joinable, and the warning [joinThreads] logs in sequential mode. *)
Definition not_joinable_error (i : ThreadId) : string :=
  (thread_name i ++ " thread is not joinable...")%string.

Definition sequential_join_warning : string :=
  "Asked to join threads while in sequential mode, this is ok, but should not happen.".

(** Worker threads that finish their work during a sleep: the frontend and
    the backend come out initialised and idle. *)
Definition stages_settle (n : nat) (p : Pipeline.t) : Pipeline.t :=
  with_vio_backend_module_ (Some (PipelineModule.mk false true false))
    (with_vio_frontend_module_ (Some (PipelineModule.mk false true false)) p).

(** Parameters and flags that enable every stage, in parallel mode. *)
Definition full_parallel_params : VioParams := mkVioParams true 2 true.
Definition all_stages_flags : Flags := mkFlags true 0 true.

End Statements.

Section MonadFacts.
Variables S E : Type.

Lemma bind_Ret {A B} (m : M S E A) (k : A -> M S E B) s a s1 tr1 :
  m s = (Ret a, s1, tr1) -> bind m k s = after tr1 (k a s1).
Proof. intros Hm. unfold bind. rewrite Hm. reflexivity. Qed.

Lemma bind_Block {A B} (m : M S E A) (k : A -> M S E B) s s1 tr1 :
  m s = (Block, s1, tr1) -> bind m k s = (Block, s1, tr1).
Proof. intros Hm. unfold bind. rewrite Hm. reflexivity. Qed.

Lemma after_triple {A} (tr : list E) (r : Res A) (s : S) (tr' : list E) :
  after tr (r, s, tr') = (r, s, tr ++ tr').
Proof. reflexivity. Qed.

Lemma after_after {A} (tr1 tr2 : list E) (x : Res A * S * list E) :
  after tr1 (after tr2 x) = after (tr1 ++ tr2) x.
Proof. unfold after. cbn. now rewrite app_assoc. Qed.

Lemma final_after {A} (tr : list E) (x : Res A * S * list E) :
  final (after tr x) = final x.
Proof. reflexivity. Qed.

Lemma after_nil {A} (x : Res A * S * list E) : after [] x = x.
Proof. destruct x as [[r s] tr]. reflexivity. Qed.

Lemma cannot_fail_bind {A B} c (m : M S E A) (k : A -> M S E B) :
  cannot_fail c m -> (forall a, cannot_fail c (k a)) ->
  cannot_fail c (bind m k).
Proof.
  intros Hm Hk s. unfold bind. specialize (Hm s).
  destruct (m s) as [[[a|c'| |] s1] tr1]; cbn in *; try congruence.
  apply (Hk a s1).
Qed.

Lemma cannot_fail_ret {A} c (a : A) : cannot_fail c (ret (S := S) (E := E) a).
Proof. intros s. discriminate. Qed.

Lemma cannot_fail_gets {A} c (f : S -> A) : cannot_fail c (gets (E := E) f).
Proof. intros s. discriminate. Qed.

Lemma cannot_fail_modify c (f : S -> S) : cannot_fail c (modify (E := E) f).
Proof. intros s. discriminate. Qed.

Lemma cannot_fail_emit c (e : E) : cannot_fail c (emit (S := S) e).
Proof. intros s. discriminate. Qed.

Lemma cannot_fail_CHECK c b c' :
  c' <> c -> cannot_fail c (CHECK (S := S) (E := E) b c').
Proof. intros Hc s. destruct b; cbn; congruence. Qed.

Lemma cannot_fail_when c b (m : M S E unit) :
  cannot_fail c m -> cannot_fail c (when b m).
Proof. intros Hm. destruct b; [exact Hm | apply cannot_fail_ret]. Qed.

Lemma preserves_bind {A B} (I : S -> Prop) (m : M S E A)
    (k : A -> M S E B) :
  preserves I m -> (forall a, preserves I (k a)) -> preserves I (bind m k).
Proof.
  intros Hm Hk s Hs. specialize (Hm s Hs). unfold final, bind in *.
  destruct (m s) as [[[a|c| |] s1] tr1]; cbn in *; try exact Hm.
  apply (Hk a s1 Hm).
Qed.

Lemma preserves_ret {A} (I : S -> Prop) (a : A) :
  preserves I (ret (E := E) a).
Proof. intros s Hs. exact Hs. Qed.

Lemma preserves_gets {A} (I : S -> Prop) (f : S -> A) :
  preserves I (gets (E := E) f).
Proof. intros s Hs. exact Hs. Qed.

Lemma preserves_emit (I : S -> Prop) (e : E) : preserves I (emit e).
Proof. intros s Hs. exact Hs. Qed.

Lemma preserves_abort {A} (I : S -> Prop) (c : CheckId) :
  preserves I (abort (E := E) (A := A) c).
Proof. intros s Hs. exact Hs. Qed.

Lemma preserves_out_of_fuel {A} (I : S -> Prop) :
  preserves I (out_of_fuel (E := E) (A := A)).
Proof. intros s Hs. exact Hs. Qed.

Lemma preserves_modify (I : S -> Prop) (f : S -> S) :
  (forall s, I s -> I (f s)) -> preserves I (modify (E := E) f).
Proof. intros Hf s Hs. exact (Hf s Hs). Qed.

Lemma preserves_CHECK (I : S -> Prop) b c :
  preserves I (CHECK (E := E) b c).
Proof. intros s Hs. destruct b; exact Hs. Qed.

Lemma preserves_when (I : S -> Prop) b (m : M S E unit) :
  preserves I m -> preserves I (when b m).
Proof. intros Hm. destruct b; [exact Hm | apply preserves_ret]. Qed.

End MonadFacts.

Ltac fields p :=
  destruct p as [par dp fe feq be beq me lc vi dq di cb ft bt mt lt vt sd ok].

Ltac run_with lem :=
  erewrite bind_Ret by (first [ apply lem | reflexivity ]).

Section LifecycleRuns.
Context `{Payloads}.
Import Pipeline.

Lemma joinThread_run (i : ThreadId) (p : Pipeline.t) :
  joinThread i p = (Ret tt, joinThread_state i p, joinThread_trace i p).
Proof.
  fields p.
  destruct i;
    [ destruct bt as [[[|]]|] | destruct ft as [[[|]]|]
    | destruct mt as [[[|]]|] | destruct lt as [[[|]]|]
    | destruct vt as [[[|]]|] ];
    destruct par; vm_compute; reflexivity.
Qed.

Lemma joinThread_state_parallel (i : ThreadId) (p : Pipeline.t) :
  parallel_run_ (joinThread_state i p) = parallel_run_ p.
Proof. destruct i; reflexivity. Qed.

Lemma joinThread_state_other (i j : ThreadId) (p : Pipeline.t) :
  i <> j -> thread_of j (joinThread_state i p) = thread_of j p.
Proof. intros Hij. destruct i, j; try reflexivity; congruence. Qed.

Lemma joinThread_trace_other (i j : ThreadId) (p : Pipeline.t) :
  i <> j -> joinThread_trace j (joinThread_state i p) = joinThread_trace j p.
Proof.
  intros Hij. unfold joinThread_trace.
  rewrite joinThread_state_other, joinThread_state_parallel by assumption.
  reflexivity.
Qed.

Lemma joinThreads_run (p : Pipeline.t) :
  joinThreads p = (Ret tt, joinThreads_state p, joinThreads_trace p).
Proof.
  unfold joinThreads, joinThreads_state, joinThreads_trace, all_threads.
  cbn [fold_left flat_map].
  run_with joinThread_run.
  assert (Hw : forall b, when (negb b) (LOG WARNING
      "Asked to join threads while in sequential mode, this is ok, but should not happen.") p
      = (Ret tt, p, if b then [] else [ELog WARNING
      "Asked to join threads while in sequential mode, this is ok, but should not happen."])).
  { intros [|]; reflexivity. }
  run_with Hw.
  repeat run_with joinThread_run.
  rewrite !joinThread_trace_other by discriminate.
  unfold LOG, emit, after; cbn [fst snd app].
  rewrite <- !app_assoc, ?app_nil_r. reflexivity.
Qed.

Lemma stopThreads_run (p : Pipeline.t) :
  is_some (vio_frontend_module_ p) = true ->
  is_some (vio_backend_module_ p) = true ->
  stopThreads p = (Ret tt, stopThreads_state p, stopThreads_trace p).
Proof.
  fields p. cbn [vio_frontend_module_ vio_backend_module_].
  intros Hfe Hbe.
  destruct fe; [|discriminate]. destruct be; [|discriminate].
  destruct me, lc, vi, di; vm_compute; reflexivity.
Qed.

Lemma stopThreads_state_parallel (p : Pipeline.t) :
  parallel_run_ (stopThreads_state p) = parallel_run_ p.
Proof. fields p. destruct di; reflexivity. Qed.

Lemma stopThreads_state_thread (i : ThreadId) (p : Pipeline.t) :
  thread_of i (stopThreads_state p) = thread_of i p.
Proof. fields p. destruct di, i; reflexivity. Qed.

Lemma stopThreads_state_constructed (m : ModuleId) (p : Pipeline.t) :
  is_some (module_of m (stopThreads_state p)) = is_some (module_of m p).
Proof.
  fields p. destruct m, dp, fe, be, me, lc, vi, di; reflexivity.
Qed.

Lemma module_shutdown_state_parallel (m : ModuleId) (b : bool)
    (p : Pipeline.t) :
  parallel_run_ (module_shutdown_state m (with_shutdown_ b p))
  = parallel_run_ p.
Proof. destruct m; reflexivity. Qed.

Lemma module_shutdown_state_thread (m : ModuleId) (b : bool) (i : ThreadId)
    (p : Pipeline.t) :
  thread_of i (module_shutdown_state m (with_shutdown_ b p)) = thread_of i p.
Proof. destruct m, i; reflexivity. Qed.

Lemma module_shutdown_state_constructed (m m' : ModuleId) (b : bool)
    (p : Pipeline.t) :
  is_some (module_of m' (module_shutdown_state m (with_shutdown_ b p)))
  = is_some (module_of m' p).
Proof.
  fields p.
  destruct m, m'; try reflexivity;
    cbv [module_shutdown_state module_of with_module_of with_shutdown_];
    cbn;
    match goal with |- context [option_map _ ?x] => destruct x end;
    reflexivity.
Qed.

Lemma stopThreads_trace_ext (p q : Pipeline.t) :
  (forall m, is_some (module_of m p) = is_some (module_of m q)) ->
  stopThreads_trace p = stopThreads_trace q.
Proof.
  intros Hm. unfold stopThreads_trace, if_constructed.
  now rewrite !Hm.
Qed.

Lemma joinThreads_trace_ext (p q : Pipeline.t) :
  parallel_run_ p = parallel_run_ q ->
  (forall i, thread_of i p = thread_of i q) ->
  joinThreads_trace p = joinThreads_trace q.
Proof.
  intros Hp Ht. unfold joinThreads_trace, joinThread_trace, all_threads.
  cbn [flat_map]. rewrite Hp, !Ht. reflexivity.
Qed.

Lemma when_LOG_run (b : bool) (s : Severity) (msg : string) (p : Pipeline.t) :
  when b (LOG s msg) p = (Ret tt, p, if b then [ELog s msg] else []).
Proof. destruct b; reflexivity. Qed.

Lemma callback_run (cb : option ShutdownPipelineCallback) (p : Pipeline.t) :
  match cb with
  | Some callee =>
      bind (LOG INFO "Calling registered shutdown callbacks...")
           (fun _ => emit (ECallShutdownPipelineCb callee))
  | None => ret (E := Event) tt
  end p =
  (Ret tt, p,
   match cb with
   | Some callee =>
       [ELog INFO "Calling registered shutdown callbacks...";
        ECallShutdownPipelineCb callee]
   | None => []
   end).
Proof. destruct cb; reflexivity. Qed.

Lemma CHECK_run (b : bool) (c : CheckId) (p : Pipeline.t) :
  b = true -> CHECK (E := Event) b c p = (Ret tt, p, []).
Proof. intros ->. reflexivity. Qed.

Lemma when_joinThreads_run (b : bool) (p : Pipeline.t) :
  when b joinThreads p =
  (Ret tt, if b then joinThreads_state p else p,
   if b then joinThreads_trace p else []).
Proof. destruct b; [apply joinThreads_run | reflexivity]. Qed.

Lemma shutdown_run (p : Pipeline.t) :
  has_core_modules p = true ->
  shutdown p = (Ret tt, shutdown_state p, shutdown_trace p).
Proof.
  unfold has_core_modules. intros Hcore.
  apply andb_prop in Hcore as [Hcore Hbe].
  apply andb_prop in Hcore as [Hdp Hfe].
  unfold shutdown.
  repeat (erewrite bind_Ret by
            first [ apply when_LOG_run
                  | apply callback_run
                  | apply CHECK_run; assumption
                  | apply stopThreads_run; assumption
                  | apply when_joinThreads_run
                  | reflexivity ]).
  cbn [modify fst snd].
  fold (module_shutdown_state DataProvider (with_shutdown_ true p)).
  set (p1 := module_shutdown_state DataProvider (with_shutdown_ true p)).
  assert (Hpar : parallel_run_ (stopThreads_state p1) = parallel_run_ p).
  { rewrite stopThreads_state_parallel. apply module_shutdown_state_parallel. }
  assert (Hstop : stopThreads_trace p1 = stopThreads_trace p).
  { apply stopThreads_trace_ext. intros m.
    apply module_shutdown_state_constructed. }
  assert (Hjoin : joinThreads_trace (stopThreads_state p1)
                  = joinThreads_trace p).
  { apply joinThreads_trace_ext; [exact Hpar|]. intros i.
    rewrite stopThreads_state_thread. apply module_shutdown_state_thread. }
  unfold shutdown_state, shutdown_trace. fold p1.
  rewrite Hstop, Hjoin, Hpar.
  change (shutdown_pipeline_cb_ (with_shutdown_ true p))
    with (shutdown_pipeline_cb_ p).
  clearbody p1. unfold LOG, emit.
  rewrite !after_triple.
  destruct (parallel_run_ p); f_equal;
    rewrite ?app_nil_r, ?app_nil_l, <- ?app_assoc; reflexivity.
Qed.

(** Every pipeline the constructor returns has its three mandatory modules,
    open queues, a clear shutdown flag and a healthy estimator. *)
Lemma new_is_well_formed (params : VioParams) (flags : Flags) :
  outcome (new params flags) = Ret tt ->
  let p := final (new params flags) in
  has_core_modules p = true /\
  shutdown_ p = false /\
  is_backend_ok_ p = true /\
  parallel_run_ p = params_parallel_run_ params /\
  (forall q, queue_isShutdown q p = false).
Proof.
  destruct params as [par cam bp], flags as [vis viz lcd].
  unfold new, constructor.
  cbn [camera_params_size has_backend_params_ params_parallel_run_
       FLAGS_visualize FLAGS_viz_type FLAGS_use_lcd].
  generalize (Nat.eqb cam 2) (Z.eqb viz kMesh2dTo3dSparse).
  intros b1 b2.
  destruct par, bp, vis, lcd, b1, b2; vm_compute; intros Hret;
    try discriminate;
    repeat split; intros q; destruct q; reflexivity.
Qed.

End LifecycleRuns.

(** * The claims *)

Section Claims.
Context `{Payloads}.
Import Pipeline.
Variable module_spin : ModuleId -> Pipeline.t -> bool * Pipeline.t.
Variable while_asleep : nat -> Pipeline.t -> Pipeline.t.

Ltac no_failure :=
  repeat first
    [ apply cannot_fail_bind; [| intros ?]
    | apply cannot_fail_ret
    | apply cannot_fail_gets
    | apply cannot_fail_modify
    | apply cannot_fail_emit
    | apply cannot_fail_CHECK; discriminate
    | apply cannot_fail_when
    | progress unfold LOG, spin, queue_shutdown, module_shutdown
    | intros ?; discriminate ].

Lemma spinSequential_cannot_fail_packet_check :
  cannot_fail CHECK_stereo_imu_sync_packet (spinSequential module_spin).
Proof. unfold spinSequential. no_failure. Qed.

Lemma pushBlockingIfFull_cannot_fail c packet n :
  cannot_fail c (pushBlockingIfFull_frontend_input packet n).
Proof.
  unfold pushBlockingIfFull_frontend_input.
  apply cannot_fail_bind; [apply cannot_fail_emit|].
  intros _ s.
  destruct (ThreadsafeQueue.pushBlockingIfFull _ _ _) as [[q ok]|];
    discriminate.
Qed.

Lemma delivered_one {T : Type} (q : ThreadsafeQueue.t T) (x : T) :
  fst (ThreadsafeQueue.push q x) = delivered q [x].
Proof.
  unfold ThreadsafeQueue.push, delivered.
  destruct (ThreadsafeQueue.shutdown_ q); reflexivity.
Qed.

Lemma delivered_app {T : Type} (q : ThreadsafeQueue.t T) (xs ys : list T) :
  delivered (delivered q xs) ys = delivered q (xs ++ ys).
Proof.
  unfold delivered.
  destruct (ThreadsafeQueue.shutdown_ q) eqn:Hq.
  - now rewrite Hq.
  - cbn. now rewrite app_assoc.
Qed.

Lemma delivered_nil {T : Type} (q : ThreadsafeQueue.t T) :
  delivered q [] = q.
Proof.
  unfold delivered. destruct q as [data [|]]; cbn; [reflexivity|].
  now rewrite app_nil_r.
Qed.

Lemma effects_app (tr1 tr2 : list Event) :
  effects (tr1 ++ tr2) = effects tr1 ++ effects tr2.
Proof. apply filter_app. Qed.

Lemma frontend_output_callback_run (o : FrontendOutput) (p : Pipeline.t) :
  frontend_output_callback (Some o) p =
  (Ret tt,
   if is_keyframe_ o
   then with_backend_input_queue_
          (delivered (backend_input_queue_ p) [make_BackendInput o]) p
   else p,
   if is_keyframe_ o
   then [EPush (make_BackendInput o)]
   else [ELog (VLOG 5)
           "Frontend did not output a keyframe, skipping backend input."]).
Proof.
  unfold frontend_output_callback.
  destruct (is_keyframe_ o); [|reflexivity].
  unfold push_backend_input, bind, emit, modify, after. cbn [fst snd app].
  now rewrite delivered_one.
Qed.

Lemma frontend_outputs_run (outputs : list FrontendOutput) :
  forall p : Pipeline.t,
    let r := frontend_outputs (map Some outputs) p in
    outcome r = Ret tt /\
    effects (trace r) = map EPush (keyframe_inputs outputs) /\
    backend_input_queue_ (final r)
    = delivered (backend_input_queue_ p) (keyframe_inputs outputs).
Proof.
  induction outputs as [|o rest IH]; intros p.
  - cbn. repeat split. now rewrite delivered_nil.
  - cbn [map frontend_outputs].
    erewrite bind_Ret by apply frontend_output_callback_run.
    unfold outcome, trace, final, after. cbn [fst snd].
    rewrite effects_app. unfold keyframe_inputs. cbn [filter].
    destruct (is_keyframe_ o).
    + match goal with
      | |- context [frontend_outputs _ ?q] =>
          destruct (IH q) as (Ho & He & Hq)
      end.
      unfold outcome, trace, final in Ho, He, Hq.
      rewrite He, Hq. repeat split; [exact Ho|].
      change (backend_input_queue_ (with_backend_input_queue_ ?q p)) with q.
      rewrite delivered_app. reflexivity.
    + destruct (IH p) as (Ho & He & Hq).
      unfold outcome, trace, final in Ho, He, Hq.
      rewrite He, Hq. repeat split. exact Ho.
Qed.

(** C1 (as amended). The frontend output callback calls [push] on the
    backend input queue exactly for the outputs whose keyframe flag is set:
    over any sequence of outputs the pushes it issues are the inputs made
    from the keyframes, in output order.  A backend input queue that is not
    shut down then holds them, in that order, behind what it held before; a
    queue that is shut down, as it is from the first step of [stopThreads]
    on, takes none of them and is left as it was.  A single output is
    pushed if and only if it is a keyframe.  Of three outputs of which the
    first and the third are keyframes, exactly those two reach an open,
    empty queue, first before third. *)
Theorem frontend_callback_pushes_keyframes_in_order :
  (forall (outputs : list FrontendOutput) (p : Pipeline.t),
      let r := frontend_outputs (map Some outputs) p in
      let q := backend_input_queue_ p in
      outcome r = Ret tt /\
      effects (trace r) = map EPush (keyframe_inputs outputs) /\
      backend_input_queue_ (final r)
      = (if ThreadsafeQueue.isShutdown q then q
         else ThreadsafeQueue.mk
                (ThreadsafeQueue.data_queue_ q ++ keyframe_inputs outputs)
                false)) /\
  (forall (o : FrontendOutput) (p : Pipeline.t),
      effects (trace (frontend_output_callback (Some o) p))
      = if is_keyframe_ o then [EPush (make_BackendInput o)] else []) /\
  (forall (o1 o2 o3 : FrontendOutput) (p : Pipeline.t),
      backend_input_queue_
        (final (frontend_outputs
                  [Some (marked true o1); Some (marked false o2);
                   Some (marked true o3)]
                  (with_backend_input_queue_ empty_queue p)))
      = ThreadsafeQueue.mk
          [make_BackendInput (marked true o1);
           make_BackendInput (marked true o3)]
          false).
Proof.
  split; [|split].
  - intros outputs p. apply frontend_outputs_run.
  - intros o p. rewrite frontend_output_callback_run.
    unfold trace. cbn [snd]. destruct (is_keyframe_ o); reflexivity.
  - intros o1 o2 o3 p.
    destruct (frontend_outputs_run
                [marked true o1; marked false o2; marked true o3]
                (with_backend_input_queue_ empty_queue p)) as (_ & _ & Hq).
    cbn [map] in Hq. rewrite Hq. reflexivity.
Qed.

Lemma ap_eq {A B : Type} (f g : A -> B) (x y : A) :
  f = g -> x = y -> f x = g y.
Proof. intros -> ->. reflexivity. Qed.

(** Finishes an equation between two evaluated pipeline objects whose
    fields still inspect a module or thread handle. *)
Ltac by_handles :=
  repeat match goal with
         | |- context [match ?x with _ => _ end] => is_var x; destruct x
         end;
  reflexivity.

Lemma effects_joinThread_trace (i : ThreadId) (p : Pipeline.t) :
  effects (joinThread_trace i p)
  = if is_joinable (thread_of i p) then [EThreadJoin i] else [].
Proof.
  unfold joinThread_trace, is_joinable.
  destruct (thread_of i p) as [[[|]]|]; try reflexivity.
  destruct (parallel_run_ p); reflexivity.
Qed.

Lemma effects_joinThreads_trace (p : Pipeline.t) :
  effects (joinThreads_trace p) = joinThreads_effects p.
Proof.
  unfold joinThreads_trace, joinThreads_effects, all_threads.
  cbn [flat_map]. rewrite !effects_app, !effects_joinThread_trace.
  destruct (parallel_run_ p); cbn [effects filter is_effect app];
    now rewrite ?app_nil_r.
Qed.

Lemma effects_stopThreads_trace (p : Pipeline.t) :
  effects (stopThreads_trace p) = stopThreads_effects p.
Proof.
  unfold stopThreads_trace, stopThreads_effects, if_constructed.
  destruct (is_some (module_of Mesher p)), (is_some (module_of Lcd p)),
    (is_some (module_of Visualizer p)), (is_some (module_of Display p));
    reflexivity.
Qed.

Lemma effects_shutdown_trace (p : Pipeline.t) :
  effects (shutdown_trace p) = shutdown_effects p.
Proof.
  unfold shutdown_trace, shutdown_effects, callback_effects.
  rewrite !effects_app, effects_stopThreads_trace.
  replace (effects (if parallel_run_ p then joinThreads_trace p else []))
    with (if parallel_run_ p then joinThreads_effects p else [])
    by (destruct (parallel_run_ p);
        [now rewrite effects_joinThreads_trace | reflexivity]).
  destruct (shutdown_ p), (shutdown_pipeline_cb_ p);
    cbn [effects filter is_effect app]; now rewrite ?app_nil_r.
Qed.

Lemma shutdown_state_flag (p : Pipeline.t) :
  shutdown_ (shutdown_state p) = true.
Proof. fields p. destruct par, di; reflexivity. Qed.

Lemma shutdown_state_parallel (p : Pipeline.t) :
  parallel_run_ (shutdown_state p) = parallel_run_ p.
Proof. fields p. destruct par, di; reflexivity. Qed.

Lemma shutdown_state_callback (p : Pipeline.t) :
  shutdown_pipeline_cb_ (shutdown_state p) = shutdown_pipeline_cb_ p.
Proof. fields p. destruct par, di; reflexivity. Qed.

Lemma shutdown_state_constructed (m : ModuleId) (p : Pipeline.t) :
  is_some (module_of m (shutdown_state p)) = is_some (module_of m p).
Proof. fields p. destruct m, par, di; vm_compute; by_handles. Qed.

Lemma shutdown_state_core (p : Pipeline.t) :
  has_core_modules (shutdown_state p) = has_core_modules p.
Proof.
  fields p. destruct par, di; vm_compute; by_handles.
Qed.

Lemma shutdown_state_thread (i : ThreadId) (p : Pipeline.t) :
  thread_of i (shutdown_state p)
  = if parallel_run_ p then joined (thread_of i p) else thread_of i p.
Proof. fields p. destruct i, par, di; reflexivity. Qed.

Lemma joined_not_joinable (thread : option Thread.t) :
  is_joinable (joined thread) = false.
Proof. destruct thread as [[[|]]|]; reflexivity. Qed.

Lemma shutdown_state_idempotent (p : Pipeline.t) :
  shutdown_state (shutdown_state p) = shutdown_state p.
Proof.
  fields p. destruct par, di; vm_compute; repeat apply ap_eq; by_handles.
Qed.

Lemma shutdown_state_effects (p : Pipeline.t) :
  shutdown_effects (shutdown_state p)
  = callback_effects p ++ [EModuleShutdown DataProvider] ++
    stopThreads_effects p.
Proof.
  unfold shutdown_effects, callback_effects, stopThreads_effects,
    if_constructed, joinThreads_effects, all_threads.
  rewrite shutdown_state_callback, shutdown_state_parallel,
    !shutdown_state_constructed.
  cbn [flat_map]. rewrite !shutdown_state_thread.
  destruct (parallel_run_ p).
  - rewrite !joined_not_joinable. cbn [app]. now rewrite app_nil_r.
  - now rewrite app_nil_r.
Qed.

(** C5 (as amended). [shutdown] on a constructed pipeline returns, and its
    effects are, in this order: the registered shutdown callback if there is
    one, the shutdown of the data provider, then [stopThreads] (backend input
    queue, backend, frontend input queue, frontend, then the mesher, the loop
    closure detector and the visualizer if constructed, and the display input
    queue together with the display module only if the display module is
    constructed), and last, in parallel mode only, the join of every joinable
    worker thread. *)
Theorem shutdown_runs_its_steps_in_order (p : Pipeline.t) :
  has_core_modules p = true ->
  outcome (shutdown p) = Ret tt /\
  final (shutdown p) = shutdown_state p /\
  effects (trace (shutdown p)) = shutdown_effects p.
Proof.
  intros Hcore. rewrite (shutdown_run p Hcore).
  unfold outcome, final, trace. cbn [fst snd].
  repeat split. apply effects_shutdown_trace.
Qed.

(** C2 (as amended). A second [shutdown] on a pipeline that is already shut
    down leaves the pipeline object as the first call left it, but it is not
    a quiet call: its first effect is the error-level line that the pipeline
    was already shut down, and it then invokes the registered callback, shuts
    down the data provider and runs [stopThreads] once more; no thread is
    joined again. *)
Theorem second_shutdown_repeats_the_steps (p : Pipeline.t) :
  has_core_modules p = true ->
  let p1 := final (shutdown p) in
  outcome (shutdown p1) = Ret tt /\
  final (shutdown p1) = p1 /\
  hd_error (trace (shutdown p1))
  = Some (ELog ERROR
            "Shutdown requested, but Pipeline was already shutdown.") /\
  effects (trace (shutdown p1))
  = callback_effects p ++ [EModuleShutdown DataProvider] ++
    stopThreads_effects p.
Proof.
  intros Hcore p1.
  assert (Hp1 : p1 = shutdown_state p)
    by (subst p1; now rewrite (shutdown_run p Hcore)).
  clearbody p1. subst p1.
  assert (Hcore1 : has_core_modules (shutdown_state p) = true)
    by now rewrite shutdown_state_core.
  rewrite (shutdown_run _ Hcore1).
  unfold outcome, final, trace. cbn [fst snd].
  split; [reflexivity|]. split; [apply shutdown_state_idempotent|].
  split.
  - unfold shutdown_trace. now rewrite shutdown_state_flag.
  - rewrite effects_shutdown_trace. apply shutdown_state_effects.
Qed.

(** C9. The destructor calls [shutdown] exactly when the shutdown flag is not
    set; on a pipeline that was shut down it only logs two informational
    lines, so it joins nothing and reports no error, and in parallel mode the
    explicit shutdown has left no worker thread joinable. *)
Theorem destructor_shuts_down_unless_already_down :
  (forall p : Pipeline.t,
      destructor p =
      if shutdown_ p then (Ret tt, p, destructor_skips_shutdown)
      else after [ELog INFO "Pipeline destructor called."] (shutdown p)) /\
  (forall p : Pipeline.t,
      has_core_modules p = true ->
      let p1 := final (shutdown p) in
      destructor p1 = (Ret tt, p1, destructor_skips_shutdown) /\
      (parallel_run_ p = true ->
       forall i, is_joinable (thread_of i p1) = false)).
Proof.
  assert (Hd : forall p : Pipeline.t,
      destructor p =
      if shutdown_ p then (Ret tt, p, destructor_skips_shutdown)
      else after [ELog INFO "Pipeline destructor called."] (shutdown p)).
  { intros p. unfold destructor.
    do 2 (erewrite bind_Ret by reflexivity).
    destruct (shutdown_ p); cbn [negb]; [reflexivity|].
    now rewrite after_nil. }
  split; [exact Hd|].
  intros p Hcore p1.
  assert (Hp1 : p1 = shutdown_state p)
    by (subst p1; now rewrite (shutdown_run p Hcore)).
  clearbody p1. subst p1.
  split.
  - rewrite Hd, shutdown_state_flag. reflexivity.
  - intros Hpar i. rewrite shutdown_state_thread, Hpar.
    apply joined_not_joinable.
Qed.

Section Sequential.
(** A module's [spin] cannot create or destroy a module of the pipeline: the
    module pointers are private members set by the constructor. *)
Hypothesis spin_keeps_modules :
  forall m m' q,
    is_some (module_of m' (snd (module_spin m q))) = is_some (module_of m' q).

Lemma spin_run (m : ModuleId) (p : Pipeline.t) :
  spin module_spin m p =
  (Ret (fst (module_spin m p)), snd (module_spin m p), [EModuleSpin m]).
Proof. reflexivity. Qed.

Lemma when_spin_run (b : bool) (m : ModuleId) (p : Pipeline.t) :
  when b (bind (spin module_spin m) (fun _ => ret tt)) p =
  (Ret tt, spun module_spin (if b then [m] else []) p,
   map EModuleSpin (if b then [m] else [])).
Proof. destruct b; reflexivity. Qed.

Lemma spun_keeps_modules (stages : list ModuleId) (m' : ModuleId) :
  forall p,
    is_some (module_of m' (spun module_spin stages p))
    = is_some (module_of m' p).
Proof.
  induction stages as [|m rest IH]; intros p; [reflexivity|].
  change (spun module_spin (m :: rest) p)
    with (spun module_spin rest (snd (module_spin m p))).
  now rewrite IH, spin_keeps_modules.
Qed.

Lemma spun_app (xs ys : list ModuleId) (p : Pipeline.t) :
  spun module_spin (xs ++ ys) p
  = spun module_spin ys (spun module_spin xs p).
Proof. apply fold_left_app. Qed.

Lemma spinSequential_run (p : Pipeline.t) :
  has_core_modules p = true ->
  spinSequential module_spin p =
  (Ret tt, spun module_spin (enabled_stages p) p,
   map EModuleSpin (enabled_stages p)).
Proof.
  unfold has_core_modules. intros Hcore.
  apply andb_prop in Hcore as [Hcore Hbe].
  apply andb_prop in Hcore as [_ Hfe].
  unfold spinSequential.
  erewrite bind_Ret by reflexivity.
  erewrite bind_Ret by (apply CHECK_run; exact Hfe).
  erewrite bind_Ret by apply spin_run.
  erewrite bind_Ret by reflexivity.
  erewrite bind_Ret
    by (apply CHECK_run;
        change (is_some (module_of Backend (snd (module_spin Frontend p)))
                = true);
        rewrite (spin_keeps_modules Frontend Backend p); exact Hbe).
  erewrite bind_Ret by apply spin_run.
  change (snd (module_spin Backend (snd (module_spin Frontend p))))
    with (spun module_spin [Frontend; Backend] p).
  set (q2 := spun module_spin [Frontend; Backend] p).
  erewrite bind_Ret by reflexivity.
  erewrite bind_Ret by apply when_spin_run.
  set (q3 := spun module_spin _ q2).
  erewrite bind_Ret by reflexivity.
  erewrite bind_Ret by apply when_spin_run.
  set (q4 := spun module_spin _ q3).
  erewrite bind_Ret by reflexivity.
  erewrite bind_Ret by apply when_spin_run.
  set (q5 := spun module_spin _ q4).
  erewrite bind_Ret by reflexivity.
  rewrite when_spin_run.
  rewrite !after_triple.
  change (display_module_ q5) with (module_of Display q5).
  change (visualizer_module_ q4) with (module_of Visualizer q4) in *.
  change (lcd_module_ q3) with (module_of Lcd q3) in *.
  change (mesher_module_ q2) with (module_of Mesher q2) in *.
  subst q5. rewrite (spun_keeps_modules _ Display q4).
  subst q4. rewrite !(spun_keeps_modules _ _ q3).
  subst q3. rewrite !(spun_keeps_modules _ _ q2).
  subst q2. rewrite !(spun_keeps_modules _ _ p).
  unfold enabled_stages. cbn [filter].
  destruct (is_some (module_of Mesher p)), (is_some (module_of Lcd p)),
    (is_some (module_of Visualizer p)), (is_some (module_of Display p));
    reflexivity.
Qed.

Lemma pushBlockingIfFull_run (packet : StereoImuSyncPacket) (n : nat)
    (p : Pipeline.t) :
  ThreadsafeQueue.isShutdown (stereo_frontend_input_queue_ p) = false ->
  pushBlockingIfFull_frontend_input packet n p =
  if Nat.ltb (List.length (ThreadsafeQueue.data_queue_
                             (stereo_frontend_input_queue_ p))) n
  then (Ret true, with_packet packet p, [EPushBlockingIfFull packet n])
  else (Block, p, [EPushBlockingIfFull packet n]).
Proof.
  unfold ThreadsafeQueue.isShutdown. intros Hq.
  unfold pushBlockingIfFull_frontend_input.
  erewrite bind_Ret by reflexivity.
  unfold ThreadsafeQueue.pushBlockingIfFull, with_packet. rewrite Hq.
  destruct (Nat.ltb _ n); reflexivity.
Qed.

(** C7. In sequential mode, on a pipeline that is not shut down, [spinOnce]
    first pushes the packet into the frontend input queue with capacity 5
    and then spins each constructed stage exactly once, in the order
    frontend, backend, mesher, loop closure, visualizer, display; a stage
    that is not constructed is not spun.  With five packets already queued
    the push blocks and no stage is spun. *)
Theorem spinOnce_sequential_drives_each_stage_once
    (packet : StereoImuSyncPacket) (p : Pipeline.t) :
  parallel_run_ p = false ->
  shutdown_ p = false ->
  has_core_modules p = true ->
  ThreadsafeQueue.isShutdown (stereo_frontend_input_queue_ p) = false ->
  let queued := List.length (ThreadsafeQueue.data_queue_
                               (stereo_frontend_input_queue_ p)) in
  let r := spinOnce module_spin (Some packet) p in
  (queued < 5 ->
   outcome r = Ret tt /\
   effects (trace r)
   = EPushBlockingIfFull packet 5 :: map EModuleSpin (enabled_stages p) /\
   final r = spun module_spin (enabled_stages p) (with_packet packet p)) /\
  (5 <= queued ->
   outcome r = Block /\
   effects (trace r) = [EPushBlockingIfFull packet 5] /\
   final r = p).
Proof.
  intros Hseq Hup Hcore Hopen queued r. subst r.
  unfold spinOnce.
  erewrite bind_Ret by reflexivity. rewrite Hup. cbn [negb].
  erewrite bind_Ret by reflexivity.
  split; intros Hlen.
  - erewrite bind_Ret.
    2:{ rewrite (pushBlockingIfFull_run packet 5 p Hopen).
        fold queued. apply Nat.ltb_lt in Hlen. rewrite Hlen. reflexivity. }
    erewrite bind_Ret by reflexivity.
    change (parallel_run_ (with_packet packet p)) with (parallel_run_ p).
    rewrite Hseq. cbn [negb when].
    rewrite (spinSequential_run (with_packet packet p) Hcore).
    rewrite !after_triple.
    change (enabled_stages (with_packet packet p)) with (enabled_stages p).
    unfold outcome, final, trace. cbn [fst snd app].
    repeat split.
    unfold effects. cbn [filter is_effect]. f_equal.
    induction (enabled_stages p) as [|m l IH]; [reflexivity|].
    cbn [map filter is_effect]. now rewrite IH.
  - erewrite bind_Block.
    2:{ rewrite (pushBlockingIfFull_run packet 5 p Hopen).
        fold queued. apply Nat.ltb_ge in Hlen. rewrite Hlen. reflexivity. }
    repeat split.
Qed.

End Sequential.


Lemma VLOG_IF_module_run (m : ModuleId) (msg : string) (p : Pipeline.t) :
  VLOG_IF_module m msg p
  = (Ret tt, p, if_constructed m p [ELog (VLOG 5) msg]).
Proof.
  unfold VLOG_IF_module, if_constructed.
  erewrite bind_Ret by reflexivity.
  destruct (is_some (module_of m p)); reflexivity.
Qed.

Lemma when_shutdown_run (b : bool) (p : Pipeline.t) :
  has_core_modules p = true ->
  when b shutdown p =
  (Ret tt, if b then shutdown_state p else p,
   if b then shutdown_trace p else []).
Proof. intros Hcore. destruct b; [now apply shutdown_run | reflexivity]. Qed.

Lemma gets_run {A : Type} (f : Pipeline.t -> A) (p : Pipeline.t) :
  gets (E := Event) f p = (Ret (f p), p, []).
Proof. reflexivity. Qed.

Lemma sleep_for_run (n : nat) (ms : Z) (p : Pipeline.t) :
  sleep_for while_asleep n ms p = (Ret tt, while_asleep n p, [ESleep ms]).
Proof. reflexivity. Qed.

Lemma poll_exit (fuel n : nat) (ms : Z) (ps : bool) (p : Pipeline.t) :
  loop_condition p = false ->
  poll while_asleep fuel n ms ps p = (Ret None, p, []).
Proof.
  intros Hc. destruct fuel; cbn [poll];
    erewrite bind_Ret by reflexivity; rewrite Hc; reflexivity.
Qed.

Lemma poll_step (fuel n : nat) (ms : Z) (ps : bool) (p : Pipeline.t) :
  loop_condition p = true ->
  poll while_asleep fuel n ms ps p =
  after (poll_logs ps p ++ [ESleep ms])
    (if parallel_run_ (while_asleep n p)
     then match fuel with
          | O => (OutOfFuel, while_asleep n p, [])
          | S fuel' => poll while_asleep fuel' (S n) ms ps (while_asleep n p)
          end
     else (Ret (Some false), while_asleep n p, [])).
Proof.
  intros Hc.
  assert (Hbody : forall rest : M Pipeline.t Event (option bool),
    (bind (gets loop_condition) (fun continue =>
      if continue then
        bind log_status (fun _ =>
        bind (VLOG_IF_module Mesher "Mesher is working? ") (fun _ =>
        bind (VLOG_IF_module Lcd "LoopClosureDetector is working? ") (fun _ =>
        bind (VLOG_IF_module Visualizer "Visualizer is working? ") (fun _ =>
        bind (VLOG_IF_module Display "Visualizer is working? ") (fun _ =>
        bind (when ps (LOG INFO "utils::Statistics::Print()")) (fun _ =>
        bind (sleep_for while_asleep n ms) (fun _ =>
        bind (gets parallel_run_) (fun parallel =>
          if negb parallel then ret (Some false) else rest))))))))
      else ret None)) p
    = after (poll_logs ps p ++ [ESleep ms])
        (if parallel_run_ (while_asleep n p)
         then rest (while_asleep n p)
         else (Ret (Some false), while_asleep n p, []))).
  { intros rest.
    erewrite bind_Ret by reflexivity. rewrite Hc.
    erewrite bind_Ret by reflexivity.
    do 4 (erewrite bind_Ret by apply VLOG_IF_module_run).
    erewrite bind_Ret by apply when_LOG_run.
    erewrite bind_Ret by apply sleep_for_run.
    erewrite bind_Ret by apply gets_run.
    rewrite !after_after. unfold poll_logs.
    rewrite <- !app_assoc. cbn [app].
    destruct (parallel_run_ (while_asleep n p)); cbn [negb].
    - destruct (rest (while_asleep n p)) as [[r q] tr].
      rewrite !after_triple. rewrite <- ?app_assoc, ?app_nil_r.
      reflexivity.
    - unfold ret. rewrite !after_triple. rewrite <- ?app_assoc, ?app_nil_r.
      reflexivity. }
  destruct fuel; cbn [poll]; apply Hbody.
Qed.

Lemma effects_poll_logs (ps : bool) (p : Pipeline.t) :
  effects (poll_logs ps p) = [].
Proof.
  unfold poll_logs, if_constructed.
  destruct (is_some (module_of Mesher p)), (is_some (module_of Lcd p)),
    (is_some (module_of Visualizer p)), (is_some (module_of Display p)), ps;
    reflexivity.
Qed.

Lemma effects_poll_trace (ms : Z) (ps : bool) (k : nat) :
  forall n p,
    effects (poll_trace while_asleep ms ps n k p) = repeat (ESleep ms) k.
Proof.
  induction k as [|k IH]; intros n p; [reflexivity|].
  cbn [poll_trace repeat]. rewrite !effects_app, effects_poll_logs, IH.
  reflexivity.
Qed.

Lemma shutdownWhenFinished_returns_early (fuel : nat) (ms : Z) (ps : bool)
    (p q : Pipeline.t) (b : bool) (tr : list Event) :
  has_core_modules p = true ->
  poll while_asleep fuel 0 ms ps p = (Ret (Some b), q, tr) ->
  shutdownWhenFinished while_asleep fuel ms ps p =
  (Ret b, q,
   ELog INFO "Shutting down VIO pipeline once processing has finished."
   :: tr).
Proof.
  unfold has_core_modules. intros Hcore Hpoll.
  apply andb_prop in Hcore as [Hcore Hbe].
  apply andb_prop in Hcore as [Hdp Hfe].
  unfold shutdownWhenFinished.
  erewrite bind_Ret by reflexivity.
  do 3 (erewrite bind_Ret by apply gets_run;
        erewrite bind_Ret by (apply CHECK_run; assumption)).
  erewrite bind_Ret by exact Hpoll.
  unfold ret. rewrite !after_triple. cbn [app]. now rewrite app_nil_r.
Qed.

Lemma shutdownWhenFinished_leaves_loop (fuel : nat) (ms : Z) (ps : bool)
    (p q : Pipeline.t) (tr : list Event) :
  has_core_modules p = true ->
  has_core_modules q = true ->
  poll while_asleep fuel 0 ms ps p = (Ret None, q, tr) ->
  shutdownWhenFinished while_asleep fuel ms ps p =
  (Ret true, (if shutdown_ q then q else shutdown_state q),
   ELog INFO "Shutting down VIO pipeline once processing has finished."
   :: tr ++
   [ELog INFO
      "Shutting down VIO, reason: input is empty and threads are idle.";
    ELog (VLOG 1) "shutdown_, VIO pipeline status"] ++
   (if shutdown_ q then [] else shutdown_trace q)).
Proof.
  unfold has_core_modules at 1. intros Hcore Hq Hpoll.
  apply andb_prop in Hcore as [Hcore Hbe].
  apply andb_prop in Hcore as [Hdp Hfe].
  unfold shutdownWhenFinished.
  erewrite bind_Ret by reflexivity.
  do 3 (erewrite bind_Ret by apply gets_run;
        erewrite bind_Ret by (apply CHECK_run; assumption)).
  erewrite bind_Ret by exact Hpoll.
  cbv beta iota.
  erewrite bind_Ret by reflexivity.
  erewrite bind_Ret by reflexivity.
  erewrite bind_Ret by apply gets_run.
  erewrite bind_Ret by (apply when_shutdown_run; exact Hq).
  unfold ret. rewrite !after_triple. cbn [app].
  destruct (shutdown_ q); cbn [negb];
    rewrite ?app_nil_r, <- ?app_assoc; reflexivity.
Qed.

Section Supervision.
(** The run mode is fixed by the constructor; nothing that happens while the
    supervisor sleeps changes it. *)
Hypothesis asleep_keeps_mode :
  forall n q, parallel_run_ (while_asleep n q) = parallel_run_ q.

Lemma poll_until (ms : Z) (ps : bool) (k : nat) :
  forall fuel n p,
    k <= fuel ->
    parallel_run_ p = true ->
    (forall i, i < k -> loop_condition (asleep while_asleep n i p) = true) ->
    loop_condition (asleep while_asleep n k p) = false ->
    poll while_asleep fuel n ms ps p =
    (Ret None, asleep while_asleep n k p,
     poll_trace while_asleep ms ps n k p).
Proof.
  induction k as [|k IH]; intros fuel n p Hfuel Hpar Hbusy Hdone.
  - now apply poll_exit.
  - destruct fuel as [|fuel]; [lia|].
    rewrite poll_step by (apply (Hbusy 0); lia).
    rewrite asleep_keeps_mode, Hpar.
    rewrite (IH fuel (S n) (while_asleep n p)).
    + rewrite after_triple. cbn [asleep poll_trace].
      now rewrite <- app_assoc.
    + lia.
    + now rewrite asleep_keeps_mode.
    + intros i Hi. apply (Hbusy (S i)). lia.
    + exact Hdone.
Qed.

(** C3 (as amended). In sequential mode [shutdownWhenFinished] evaluates the
    loop condition once.  If the condition holds it logs, sleeps once and
    returns false without calling [shutdown].  If the condition does not
    hold (the pipeline is shut down, the backend has failed, or the pipeline
    is initialised with every queue drained and every stage idle) it calls
    [shutdown], unless the pipeline is already shut down, and returns
    true. *)
Theorem shutdownWhenFinished_in_sequential_mode
    (fuel : nat) (ms : Z) (ps : bool) (p : Pipeline.t) :
  parallel_run_ p = false ->
  has_core_modules p = true ->
  let r := shutdownWhenFinished while_asleep fuel ms ps p in
  (loop_condition p = true ->
   outcome r = Ret false /\
   final r = while_asleep 0 p /\
   effects (trace r) = [ESleep ms]) /\
  (loop_condition p = false ->
   outcome r = Ret true /\
   final r = (if shutdown_ p then p else shutdown_state p) /\
   effects (trace r) = (if shutdown_ p then [] else shutdown_effects p)).
Proof.
  intros Hseq Hcore r. subst r. split; intros Hc.
  - erewrite shutdownWhenFinished_returns_early; [|exact Hcore|].
    2:{ rewrite (poll_step fuel 0 ms ps p Hc).
        rewrite asleep_keeps_mode, Hseq. rewrite after_triple.
        reflexivity. }
    unfold outcome, final, trace. cbn [fst snd].
    repeat split.
    change (effects (?e :: ?tr)) with (effects tr).
    now rewrite app_nil_r, effects_app, effects_poll_logs.
  - erewrite shutdownWhenFinished_leaves_loop;
      [|exact Hcore|exact Hcore|now apply poll_exit].
    unfold outcome, final, trace. cbn [fst snd].
    repeat split.
    cbn [app].
    change (effects (?e :: ?e1 :: ?e2 :: ?tr)) with (effects tr).
    destruct (shutdown_ p); [reflexivity|apply effects_shutdown_trace].
Qed.


End Supervision.

Section Terminal.
(** A module cannot clear the shutdown flag, a private member of the
    pipeline that only [shutdown] writes. *)
Hypothesis spin_keeps_down :
  forall m q, shutdown_ q = true -> shutdown_ (snd (module_spin m q)) = true.

Lemma spin_stays_down (m : ModuleId) :
  preserves is_down (spin module_spin m).
Proof.
  unfold spin. apply preserves_bind; [apply preserves_emit|].
  intros _ s Hs. exact (spin_keeps_down m s Hs).
Qed.

Lemma pushBlockingIfFull_stays_down packet n :
  preserves is_down (pushBlockingIfFull_frontend_input packet n).
Proof.
  unfold pushBlockingIfFull_frontend_input.
  apply preserves_bind; [apply preserves_emit|].
  intros _ s Hs. unfold final.
  destruct (ThreadsafeQueue.pushBlockingIfFull _ _ _) as [[q ok]|];
    exact Hs.
Qed.

Lemma joinThread_stays_down (i : ThreadId) :
  preserves is_down (joinThread i).
Proof.
  intros s Hs. rewrite joinThread_run. unfold final. cbn [fst snd].
  destruct i; exact Hs.
Qed.

Lemma poll_stays_down fuel n ms ps :
  preserves is_down (poll while_asleep fuel n ms ps).
Proof.
  intros s Hs. rewrite poll_exit; [exact Hs|].
  unfold loop_condition. unfold is_down in Hs. now rewrite Hs.
Qed.

(** One statement of a member function. *)
Ltac stays_down_step :=
  lazymatch goal with
  | |- preserves _ (bind _ _) => apply preserves_bind; [| intros ?]
  | |- preserves _ (ret _) => apply preserves_ret
  | |- preserves _ (gets _) => apply preserves_gets
  | |- preserves _ (emit _) => apply preserves_emit
  | |- preserves _ (abort _) => apply preserves_abort
  | |- preserves _ (CHECK _ _) => apply preserves_CHECK
  | |- preserves _ (when _ _) => apply preserves_when
  | |- preserves _ (modify _) =>
      apply preserves_modify; intros ? Hdown;
      first [exact Hdown | reflexivity]
  | |- preserves _ (LOG _ _) => apply preserves_emit
  | |- preserves _ log_status => apply preserves_emit
  | |- preserves _ (spin _ _) => apply spin_stays_down
  | |- preserves _ (pushBlockingIfFull_frontend_input _ _) =>
      apply pushBlockingIfFull_stays_down
  | |- preserves _ (joinThread _) => apply joinThread_stays_down
  | |- preserves _ (poll _ _ _ _ _) => apply poll_stays_down
  | |- preserves _ (queue_shutdown _) => unfold queue_shutdown
  | |- preserves _ (queue_resume _) => unfold queue_resume
  | |- preserves _ (module_shutdown _) => unfold module_shutdown
  | |- preserves _ (push_backend_input _) => unfold push_backend_input
  | |- preserves _ (VLOG_IF_module _ _) => unfold VLOG_IF_module
  | |- preserves _ (match ?x with _ => _ end) => destruct x
  end.

Lemma joinThreads_stays_down : preserves is_down joinThreads.
Proof. unfold joinThreads. repeat stays_down_step. Qed.

Lemma stopThreads_stays_down : preserves is_down stopThreads.
Proof. unfold stopThreads. repeat stays_down_step. Qed.

Ltac stays_down_step2 :=
  lazymatch goal with
  | |- preserves _ joinThreads => apply joinThreads_stays_down
  | |- preserves _ stopThreads => apply stopThreads_stays_down
  | |- _ => stays_down_step
  end.

Lemma shutdown_stays_down : preserves is_down shutdown.
Proof. unfold shutdown. repeat stays_down_step2. Qed.

Lemma spinSequential_stays_down :
  preserves is_down (spinSequential module_spin).
Proof. unfold spinSequential. repeat stays_down_step. Qed.

Ltac stays_down_step3 :=
  lazymatch goal with
  | |- preserves _ shutdown => apply shutdown_stays_down
  | |- preserves _ (spinSequential _) => apply spinSequential_stays_down
  | |- _ => stays_down_step2
  end.

Lemma call_stays_down (c : Call) (p : Pipeline.t) :
  is_down p -> is_down (call module_spin while_asleep c p).
Proof.
  revert p.
  destruct c as [packet| | |fuel ms ps| | | | | | |output| ];
    cbn [call];
    match goal with
    | |- forall p, is_down p -> is_down (final (?m p)) =>
        change (preserves is_down m)
    end;
    try unfold spinOnce; try unfold spinViz;
    try unfold shutdownWhenFinished; try unfold resume;
    try unfold launchThreads; try unfold signalBackendFailure;
    try unfold frontend_output_callback; try unfold destructor;
    repeat stays_down_step3.
Qed.

Lemma after_calls_stay_down (calls : list Call) :
  forall p, is_down p -> is_down (after_calls module_spin while_asleep calls p).
Proof.
  induction calls as [|c rest IH]; intros p Hp; [exact Hp|].
  apply IH, call_stays_down, Hp.
Qed.

Lemma shutdown_sets_flag (p : Pipeline.t) : is_down (final (shutdown p)).
Proof.
  unfold shutdown.
  do 4 (erewrite bind_Ret by first [apply when_LOG_run | reflexivity]).
  rewrite !final_after. cbv beta.
  match goal with
  | |- is_down (final (?m ?q)) =>
      cut (preserves is_down m); [intros Hm; apply Hm; reflexivity|]
  end.
  repeat stays_down_step2.
Qed.

(** C8. Once [shutdown] has been called the shutdown flag stays set through
    every later call of a member function or callback ([resume] included:
    it re-opens the frontend and the backend input queue and touches neither
    the flag nor the display input queue), so every later [spinOnce] drops
    its packet and leaves the pipeline as it is. *)
Theorem shutdown_is_terminal :
  (forall p : Pipeline.t,
      resume p =
      (Ret tt,
       resume_queue BackendInputQueue
         (resume_queue StereoFrontendInputQueue p),
       [ELog INFO "Restarting frontend workers and queues...";
        EQueueResume StereoFrontendInputQueue;
        ELog INFO "Restarting backend workers and queues...";
        EQueueResume BackendInputQueue]) /\
      shutdown_ (final (resume p)) = shutdown_ p /\
      display_input_queue_ (final (resume p)) = display_input_queue_ p /\
      queue_isShutdown StereoFrontendInputQueue (final (resume p)) = false /\
      queue_isShutdown BackendInputQueue (final (resume p)) = false) /\
  (forall (p0 : Pipeline.t) (calls : list Call)
          (packet : StereoImuSyncPacket),
      let p := after_calls module_spin while_asleep calls
                 (final (shutdown p0)) in
      shutdown_ p = true /\
      spinOnce module_spin (Some packet) p =
      (Ret tt, p,
       [ELog WARNING "Not spinning pipeline as it's been shutdown."])).
Proof.
  split.
  - intros p. repeat split.
  - intros p0 calls packet p.
    assert (Hp : shutdown_ p = true)
      by apply after_calls_stay_down, shutdown_sets_flag.
    split; [exact Hp|].
    unfold spinOnce. erewrite bind_Ret by reflexivity.
    rewrite Hp. reflexivity.
Qed.

End Terminal.

(** C6. A non-null packet handed to [spinOnce] once the shutdown flag is set
    is dropped: the call only logs one warning and leaves the pipeline, and
    with it the frontend input queue, exactly as it was. *)
Theorem spinOnce_after_shutdown_drops_packet
    (packet : StereoImuSyncPacket) (p : Pipeline.t) :
  shutdown_ p = true ->
  spinOnce module_spin (Some packet) p =
  (Ret tt, p, [ELog WARNING "Not spinning pipeline as it's been shutdown."]).
Proof.
  intros Hs. unfold spinOnce.
  erewrite bind_Ret by reflexivity.
  rewrite Hs. reflexivity.
Qed.

(** C10. [spinOnce] on a null packet fails its first [CHECK] before anything
    is logged or pushed; on a non-null packet that check cannot fail,
    whatever the state of the pipeline. *)
Theorem spinOnce_requires_packet (p : Pipeline.t) :
  spinOnce module_spin None p = (Abort CHECK_stereo_imu_sync_packet, p, []) /\
  forall packet,
    outcome (spinOnce module_spin (Some packet) p)
    <> Abort CHECK_stereo_imu_sync_packet.
Proof.
  split; [reflexivity|].
  intros packet. revert p.
  change (cannot_fail CHECK_stereo_imu_sync_packet
            (spinOnce module_spin (Some packet))).
  unfold spinOnce.
  apply cannot_fail_bind; [apply cannot_fail_gets|]. intros already.
  destruct already; cbn [negb].
  - apply cannot_fail_emit.
  - apply cannot_fail_bind; [apply cannot_fail_emit|]. intros _.
    apply cannot_fail_bind; [apply pushBlockingIfFull_cannot_fail|]. intros _.
    apply cannot_fail_bind; [apply cannot_fail_gets|]. intros parallel.
    apply cannot_fail_when, spinSequential_cannot_fail_packet_check.
Qed.

End Claims.

(** * Concrete runs *)

Section ConcreteRuns.
Import Pipeline.
Existing Instance numbered_payloads.

(** C1, the claim as first stated: while the pipeline is shutting down the
    callback pushes both keyframes of three outputs, and none of them
    appears in the backend input queue, which is already shut down. *)
Lemma keyframes_pushed_during_shutdown_do_not_arrive :
  let r := frontend_outputs
             [Some (numbered_output true 1); Some (numbered_output false 2);
              Some (numbered_output true 3)]
             shutting_down in
  outcome r = Ret tt /\
  effects (trace r)
  = [EPush (make_BackendInput (numbered_output true 1));
     EPush (make_BackendInput (numbered_output true 3))] /\
  ThreadsafeQueue.data_queue_ (backend_input_queue_ (final r)) = [].
Proof. vm_compute. repeat split. Qed.

(** C5, the claim as first stated: on a pipeline without a display module,
    [shutdown] returns without shutting down the display input queue. *)
Lemma shutdown_leaves_display_queue_open :
  let r := shutdown tracking_and_estimation_only in
  outcome r = Ret tt /\
  queue_isShutdown DisplayInputQueue (final r) = false /\
  effects (trace r) =
  [ECallShutdownPipelineCb 7; EModuleShutdown DataProvider;
   EQueueShutdown BackendInputQueue; EModuleShutdown Backend;
   EQueueShutdown StereoFrontendInputQueue; EModuleShutdown Frontend].
Proof. vm_compute. repeat split. Qed.

Lemma shutdown_runs_its_steps_in_order_witness :
  has_core_modules tracking_and_estimation_only = true /\
  outcome (shutdown tracking_and_estimation_only) = Ret tt /\
  final (shutdown tracking_and_estimation_only)
  = shutdown_state tracking_and_estimation_only /\
  effects (trace (shutdown tracking_and_estimation_only))
  = shutdown_effects tracking_and_estimation_only.
Proof.
  split; [reflexivity|].
  apply (shutdown_runs_its_steps_in_order tracking_and_estimation_only).
  reflexivity.
Defined.

(** C2, the claim as first stated: the second [shutdown] logs no warning but
    one error, and calls the callback, the data provider and every stage and
    queue shutdown again. *)
Lemma second_shutdown_is_not_quiet :
  let r := shutdown (final (shutdown tracking_and_estimation_only)) in
  logged WARNING (trace r) = [] /\
  logged ERROR (trace r)
  = ["Shutdown requested, but Pipeline was already shutdown."] /\
  effects (trace r) =
  [ECallShutdownPipelineCb 7; EModuleShutdown DataProvider;
   EQueueShutdown BackendInputQueue; EModuleShutdown Backend;
   EQueueShutdown StereoFrontendInputQueue; EModuleShutdown Frontend].
Proof. vm_compute. repeat split. Qed.

Lemma second_shutdown_repeats_the_steps_witness :
  has_core_modules tracking_and_estimation_only = true /\
  let p1 := final (shutdown tracking_and_estimation_only) in
  outcome (shutdown p1) = Ret tt /\
  final (shutdown p1) = p1 /\
  hd_error (trace (shutdown p1))
  = Some (ELog ERROR
            "Shutdown requested, but Pipeline was already shutdown.") /\
  effects (trace (shutdown p1))
  = callback_effects tracking_and_estimation_only ++
    [EModuleShutdown DataProvider] ++
    stopThreads_effects tracking_and_estimation_only.
Proof.
  split; [reflexivity|].
  apply (second_shutdown_repeats_the_steps tracking_and_estimation_only).
  reflexivity.
Defined.

Lemma destructor_shuts_down_unless_already_down_witness :
  has_core_modules tracking_and_estimation_only = true /\
  destructor (final (shutdown tracking_and_estimation_only))
  = (Ret tt, final (shutdown tracking_and_estimation_only),
     destructor_skips_shutdown).
Proof.
  split; [reflexivity|].
  apply (proj2 destructor_shuts_down_unless_already_down
               tracking_and_estimation_only).
  reflexivity.
Defined.

Lemma spinOnce_after_shutdown_drops_packet_witness :
  shutdown_ (final (shutdown tracking_and_estimation_only)) = true /\
  spinOnce consuming_spin (Some 1%Z)
    (final (shutdown tracking_and_estimation_only))
  = (Ret tt, final (shutdown tracking_and_estimation_only),
     [ELog WARNING "Not spinning pipeline as it's been shutdown."]).
Proof.
  split; [reflexivity|].
  apply (@spinOnce_after_shutdown_drops_packet numbered_payloads
           consuming_spin 1%Z
           (final (shutdown tracking_and_estimation_only))).
  reflexivity.
Defined.

Lemma consuming_spin_keeps_modules (m m' : ModuleId) (q : Pipeline.t) :
  is_some (module_of m' (snd (consuming_spin m q)))
  = is_some (module_of m' q).
Proof. destruct m, m'; reflexivity. Qed.

Lemma consuming_spin_keeps_down (m : ModuleId) (q : Pipeline.t) :
  shutdown_ q = true -> shutdown_ (snd (consuming_spin m q)) = true.
Proof. intros Hq. destruct m; exact Hq. Qed.

Lemma spinOnce_sequential_drives_each_stage_once_witness :
  (forall m m' q,
      is_some (module_of m' (snd (consuming_spin m q)))
      = is_some (module_of m' q)) /\
  parallel_run_ tracking_and_estimation_only = false /\
  shutdown_ tracking_and_estimation_only = false /\
  has_core_modules tracking_and_estimation_only = true /\
  ThreadsafeQueue.isShutdown
    (stereo_frontend_input_queue_ tracking_and_estimation_only) = false /\
  outcome (spinOnce consuming_spin (Some 1%Z) tracking_and_estimation_only)
  = Ret tt /\
  effects
    (trace (spinOnce consuming_spin (Some 1%Z) tracking_and_estimation_only))
  = EPushBlockingIfFull 1%Z 5 ::
    map EModuleSpin (enabled_stages tracking_and_estimation_only) /\
  final (spinOnce consuming_spin (Some 1%Z) tracking_and_estimation_only)
  = spun consuming_spin (enabled_stages tracking_and_estimation_only)
      (with_packet 1%Z tracking_and_estimation_only).
Proof.
  split; [exact consuming_spin_keeps_modules|].
  do 4 (split; [reflexivity|]).
  apply (proj1 (@spinOnce_sequential_drives_each_stage_once
                  numbered_payloads consuming_spin consuming_spin_keeps_modules 1%Z
                  tracking_and_estimation_only
                  eq_refl eq_refl eq_refl eq_refl)).
  vm_compute. lia.
Defined.

(** C3, the claim as first stated: in sequential mode, at the end of a run,
    [shutdownWhenFinished] does not return false: it shuts the pipeline down
    and returns true, without sleeping. *)
Lemma shutdownWhenFinished_sequential_can_shut_down :
  let r := shutdownWhenFinished no_progress 0 500 false
             finished_sequential_run in
  parallel_run_ finished_sequential_run = false /\
  shutdown_ finished_sequential_run = false /\
  outcome r = Ret true /\
  shutdown_ (final r) = true /\
  effects (trace r) =
  [EModuleShutdown DataProvider;
   EQueueShutdown BackendInputQueue; EModuleShutdown Backend;
   EQueueShutdown StereoFrontendInputQueue; EModuleShutdown Frontend].
Proof. vm_compute. repeat split. Qed.

Lemma shutdownWhenFinished_in_sequential_mode_witness :
  (forall n q, parallel_run_ (no_progress n q) = parallel_run_ q) /\
  parallel_run_ tracking_and_estimation_only = false /\
  has_core_modules tracking_and_estimation_only = true /\
  loop_condition tracking_and_estimation_only = true /\
  let r := shutdownWhenFinished no_progress 0 500 false
             tracking_and_estimation_only in
  outcome r = Ret false /\
  final r = no_progress 0 tracking_and_estimation_only /\
  effects (trace r) = [ESleep 500].
Proof.
  split; [reflexivity|]. do 3 (split; [reflexivity|]).
  apply (proj1 (@shutdownWhenFinished_in_sequential_mode
                  numbered_payloads no_progress (fun n q => eq_refl) 0 500%Z false
                  tracking_and_estimation_only eq_refl eq_refl)).
  reflexivity.
Defined.



Lemma shutdown_is_terminal_witness :
  (forall m q,
      shutdown_ q = true -> shutdown_ (snd (consuming_spin m q)) = true) /\
  let p := after_calls consuming_spin no_progress
             [CallResume; @CallSpinOnce numbered_payloads (Some 5%Z);
              CallLaunchThreads]
             (final (shutdown tracking_and_estimation_only)) in
  shutdown_ p = true /\
  spinOnce consuming_spin (Some 9%Z) p =
  (Ret tt, p, [ELog WARNING "Not spinning pipeline as it's been shutdown."]).
Proof.
  split; [exact consuming_spin_keeps_down|].
  apply (proj2 (@shutdown_is_terminal numbered_payloads
                  consuming_spin no_progress
                  consuming_spin_keeps_down)
           tracking_and_estimation_only
           [CallResume; @CallSpinOnce numbered_payloads (Some 5%Z);
              CallLaunchThreads] 9%Z).
Defined.

End ConcreteRuns.

(** * Further properties of the orchestrator *)

(** ** Pipelines as the constructor returns them *)

Section Constructed.
Context `{Payloads}.
Import Pipeline.
Variable module_spin : ModuleId -> Pipeline.t -> bool * Pipeline.t.

(** Splits on everything the constructor looks at. *)
Ltac by_construction params flags :=
  destruct params as [par cam bp], flags as [vis viz lcd];
  unfold new, constructor, threads_of, threads_missing; unfold enabled_by;
  cbv [camera_params_size has_backend_params_ params_parallel_run_
       FLAGS_visualize FLAGS_viz_type FLAGS_use_lcd];
  generalize (Nat.eqb cam 2) (Z.eqb viz kMesh2dTo3dSparse);
  intros sized meshed;
  destruct par, bp, vis, lcd, sized, meshed.


(** X2. A pipeline the constructor returns has exactly the modules the flags
    enable (data provider, frontend and backend always; the mesher for
    visualization type 0; the visualizer and the display with
    [--visualize]; the loop closure detector with [--use_lcd]), and, in
    parallel mode, one joinable worker thread for each of them except the
    data provider and the display; in sequential mode it has no thread. *)
Theorem constructor_builds_enabled_stages (params : VioParams)
    (flags : Flags) :
  outcome (new params flags) = Ret tt ->
  let p := final (new params flags) in
  (forall m, is_some (module_of m p) = enabled_by flags m) /\
  (forall i,
      thread_of i p
      = if params_parallel_run_ params && enabled_by flags (thread_module i)
        then Some Thread.started else None).
Proof.
  by_construction params flags; vm_compute; intros Hr; try discriminate;
    split; intros x; destruct x; reflexivity.
Qed.

(** X3. The first [shutdown] of a pipeline the constructor returned reports
    no error.  In parallel mode it joins exactly the threads that were
    launched, each once, in the order backend, frontend, mesher, loop
    closure, visualizer, after the stages were told to stop, and logs one
    warning for each optional stage that has no thread; in sequential mode it
    joins nothing and logs no warning.  No thread is joinable afterwards. *)
Theorem first_shutdown_joins_the_launched_threads (params : VioParams)
    (flags : Flags) :
  outcome (new params flags) = Ret tt ->
  let p := final (new params flags) in
  let r := shutdown p in
  outcome r = Ret tt /\
  logged ERROR (trace r) = [] /\
  effects (trace r)
  = [EModuleShutdown DataProvider] ++ stopThreads_effects p ++
    (if params_parallel_run_ params
     then map EThreadJoin (threads_of flags) else []) /\
  logged WARNING (trace r)
  = (if params_parallel_run_ params
     then map no_thread_warning (threads_missing flags) else []) /\
  (forall i, is_joinable (thread_of i (final r)) = false).
Proof.
  by_construction params flags; vm_compute; intros Hr; try discriminate;
    repeat split; try (intros i; destruct i); reflexivity.
Qed.

(** X4. Destroying a pipeline that was constructed and never shut down runs
    the full shutdown: the destructor returns with the shutdown flag set,
    every stage queue and module told to stop, and no worker thread left
    joinable. *)
Theorem destructor_of_a_running_pipeline (params : VioParams)
    (flags : Flags) :
  outcome (new params flags) = Ret tt ->
  let p := final (new params flags) in
  let r := destructor p in
  outcome r = Ret tt /\
  shutdown_ (final r) = true /\
  effects (trace r) = effects (trace (shutdown p)) /\
  final r = final (shutdown p) /\
  (forall i, is_joinable (thread_of i (final r)) = false).
Proof.
  by_construction params flags; vm_compute; intros Hr; try discriminate;
    repeat split; try (intros i; destruct i); reflexivity.
Qed.

(** X5. On a constructed pipeline [spinViz] spins the display module once,
    and returns what that spin returns, when visualization is enabled; with
    visualization disabled there is no display module and the call returns
    true without any effect. *)
Theorem spinViz_needs_the_display (params : VioParams) (flags : Flags) :
  outcome (new params flags) = Ret tt ->
  let p := final (new params flags) in
  spinViz module_spin p
  = if FLAGS_visualize flags
    then (Ret (fst (module_spin Display p)), snd (module_spin Display p),
          [EModuleSpin Display])
    else (Ret true, p, []).
Proof.
  by_construction params flags; vm_compute; intros Hr; try discriminate;
    reflexivity.
Qed.

End Constructed.

(** ** Threads, queues and callbacks on any pipeline *)

Section Handles.
Context `{Payloads}.
Import Pipeline.
Variable module_spin : ModuleId -> Pipeline.t -> bool * Pipeline.t.

(** Decides the remaining inspections of module and thread handles. *)
Ltac by_cases_on_handles :=
  repeat match goal with
         | |- context [match ?x with _ => _ end] => is_var x; destruct x
         end;
  reflexivity.

Lemma joinThreads_state_thread (i : ThreadId) (p : Pipeline.t) :
  thread_of i (joinThreads_state p) = joined (thread_of i p).
Proof. fields p. destruct i; reflexivity. Qed.

Lemma joinThreads_state_idempotent (p : Pipeline.t) :
  joinThreads_state (joinThreads_state p) = joinThreads_state p.
Proof. fields p. vm_compute. repeat apply ap_eq; by_cases_on_handles. Qed.

(** X6. [joinThreads] joins every joinable worker thread once and leaves
    every handle not joinable; called again it joins nothing and changes
    nothing, so no thread is ever joined twice. *)
Theorem joinThreads_joins_no_thread_twice (p : Pipeline.t) :
  let r1 := joinThreads p in
  let r2 := joinThreads (final r1) in
  outcome r1 = Ret tt /\
  effects (trace r1) = joinThreads_effects p /\
  (forall i, thread_of i (final r1) = joined (thread_of i p)) /\
  (forall i, is_joinable (thread_of i (final r1)) = false) /\
  outcome r2 = Ret tt /\
  effects (trace r2) = [] /\
  final r2 = final r1.
Proof.
  intros r1 r2. subst r2 r1.
  rewrite (joinThreads_run p). unfold outcome, final, trace. cbn [fst snd].
  rewrite (joinThreads_run (joinThreads_state p)). cbn [fst snd].
  rewrite !effects_joinThreads_trace, joinThreads_state_idempotent.
  split; [reflexivity|]. split; [reflexivity|].
  split; [intros i; apply joinThreads_state_thread|].
  split.
  { intros i. rewrite joinThreads_state_thread. apply joined_not_joinable. }
  split; [reflexivity|]. split; [|reflexivity].
  unfold joinThreads_effects, all_threads. cbn [flat_map].
  rewrite !joinThreads_state_thread, !joined_not_joinable. reflexivity.
Qed.

(** X7. [stopThreads] raises stop flags and nothing else: it shuts down the
    frontend and the backend input queue, the display input queue when the
    display is constructed, and every constructed stage module; it leaves
    the pipeline's own shutdown flag, the health flag, the data provider,
    every thread handle and every queued item as they were. *)
Theorem stopThreads_only_raises_stop_flags (p : Pipeline.t) :
  has_core_modules p = true ->
  let r := stopThreads p in
  let q := final r in
  outcome r = Ret tt /\
  shutdown_ q = shutdown_ p /\
  is_backend_ok_ q = is_backend_ok_ p /\
  data_provider_module_ q = data_provider_module_ p /\
  (forall i, thread_of i q = thread_of i p) /\
  (forall m, m <> DataProvider ->
             module_of m q
             = option_map PipelineModule.shutdown (module_of m p)) /\
  stereo_frontend_input_queue_ q
  = ThreadsafeQueue.shutdown (stereo_frontend_input_queue_ p) /\
  backend_input_queue_ q
  = ThreadsafeQueue.shutdown (backend_input_queue_ p) /\
  display_input_queue_ q
  = (if is_some (display_module_ p)
     then ThreadsafeQueue.shutdown (display_input_queue_ p)
     else display_input_queue_ p).
Proof.
  intros Hcore r q. subst q r. unfold has_core_modules in Hcore.
  apply andb_prop in Hcore as [Hcore Hbe].
  apply andb_prop in Hcore as [_ Hfe].
  rewrite (stopThreads_run p Hfe Hbe).
  unfold outcome, final. cbn [fst snd]. clear Hfe Hbe.
  fields p. destruct di; vm_compute;
    repeat split;
    try (intros i; destruct i; reflexivity);
    try (intros m Hm; destruct m; try congruence; by_cases_on_handles).
Qed.

(** X8. [resume] after [stopThreads] re-opens the frontend and the backend
    input queue, with their contents, and nothing else: every constructed
    stage module keeps its shutdown request and a display input queue that
    was shut down stays shut down. *)
Theorem resume_does_not_restart_the_stages (p : Pipeline.t) :
  has_core_modules p = true ->
  let q := final (resume (final (stopThreads p))) in
  outcome (resume (final (stopThreads p))) = Ret tt /\
  stereo_frontend_input_queue_ q
  = ThreadsafeQueue.resume (stereo_frontend_input_queue_ p) /\
  backend_input_queue_ q
  = ThreadsafeQueue.resume (backend_input_queue_ p) /\
  display_input_queue_ q
  = (if is_some (display_module_ p)
     then ThreadsafeQueue.shutdown (display_input_queue_ p)
     else display_input_queue_ p) /\
  (forall m, m <> DataProvider ->
             module_of m q
             = option_map PipelineModule.shutdown (module_of m p)).
Proof.
  intros Hcore q. subst q. unfold has_core_modules in Hcore.
  apply andb_prop in Hcore as [Hcore Hbe].
  apply andb_prop in Hcore as [_ Hfe].
  rewrite (stopThreads_run p Hfe Hbe).
  unfold outcome, final. cbn [fst snd]. clear Hfe Hbe.
  fields p. destruct di; vm_compute;
    repeat split;
    try (intros m Hm; destruct m; try congruence; by_cases_on_handles).
Qed.

(** X9. In parallel mode [spinOnce] on a pipeline that is not shut down only
    queues: with fewer than five packets waiting it appends the packet to
    the frontend input queue and returns without spinning any stage; with
    five or more it blocks the caller and queues nothing. *)
Theorem spinOnce_parallel_only_queues
    (packet : StereoImuSyncPacket) (p : Pipeline.t) :
  parallel_run_ p = true ->
  shutdown_ p = false ->
  ThreadsafeQueue.isShutdown (stereo_frontend_input_queue_ p) = false ->
  let queued := List.length (ThreadsafeQueue.data_queue_
                               (stereo_frontend_input_queue_ p)) in
  (queued < 5 ->
   spinOnce module_spin (Some packet) p
   = (Ret tt, with_packet packet p,
      [ELog (VLOG 2) "Push input payload to Frontend.";
       EPushBlockingIfFull packet 5])) /\
  (5 <= queued ->
   spinOnce module_spin (Some packet) p
   = (Block, p,
      [ELog (VLOG 2) "Push input payload to Frontend.";
       EPushBlockingIfFull packet 5])).
Proof.
  intros Hpar Hup Hopen queued.
  unfold spinOnce.
  erewrite bind_Ret by reflexivity. rewrite Hup. cbn [negb].
  erewrite bind_Ret by reflexivity.
  split; intros Hlen.
  - erewrite bind_Ret.
    2:{ rewrite (pushBlockingIfFull_run packet 5 p Hopen).
        fold queued. apply Nat.ltb_lt in Hlen. rewrite Hlen. reflexivity. }
    erewrite bind_Ret by reflexivity.
    change (parallel_run_ (with_packet packet p)) with (parallel_run_ p).
    rewrite Hpar. reflexivity.
  - erewrite bind_Block.
    2:{ rewrite (pushBlockingIfFull_run packet 5 p Hopen).
        fold queued. apply Nat.ltb_ge in Hlen. rewrite Hlen. reflexivity. }
    reflexivity.
Qed.

Lemma with_backend_input_queue_same (p : Pipeline.t) :
  with_backend_input_queue_ (backend_input_queue_ p) p = p.
Proof. fields p. reflexivity. Qed.



(** X11. A null output makes the frontend output callback fail its check:
    the keyframes delivered before it stay in the backend input queue, the
    null output pushes nothing, and no output after it is looked at. *)
Theorem frontend_callback_stops_at_a_null_output
    (before : list FrontendOutput) (rest : list (option FrontendOutput))
    (p : Pipeline.t) :
  let r := frontend_outputs (map Some before ++ None :: rest) p in
  outcome r = Abort CHECK_output /\
  final r
  = with_backend_input_queue_
      (delivered (backend_input_queue_ p) (keyframe_inputs before)) p /\
  effects (trace r) = map EPush (keyframe_inputs before).
Proof.
  revert p. induction before as [|o before IH]; intros p r; subst r.
  - cbn. unfold keyframe_inputs. cbn [filter map].
    now rewrite delivered_nil, with_backend_input_queue_same.
  - cbn [map app frontend_outputs].
    erewrite bind_Ret by apply frontend_output_callback_run.
    unfold outcome, final, trace, after. cbn [fst snd].
    rewrite effects_app. unfold keyframe_inputs. cbn [filter].
    destruct (is_keyframe_ o).
    + match goal with
      | |- context [frontend_outputs _ ?q] =>
          destruct (IH q) as (Ho & Hq & He)
      end.
      unfold outcome, final, trace in Ho, Hq, He.
      rewrite Ho, Hq, He. repeat split.
      change (backend_input_queue_ (with_backend_input_queue_ ?q p)) with q.
      rewrite delivered_app. reflexivity.
    + destruct (IH p) as (Ho & Hq & He).
      unfold outcome, final, trace in Ho, Hq, He.
      rewrite Ho, Hq, He. repeat split.
Qed.

Lemma logged_app (s : Severity) (tr1 tr2 : list Event) :
  logged s (tr1 ++ tr2) = logged s tr1 ++ logged s tr2.
Proof. apply flat_map_app. Qed.

Lemma logged_joinThread_trace (i : ThreadId) (p : Pipeline.t) :
  is_joinable (thread_of i p) = false ->
  logged ERROR (joinThread_trace i p)
  = (if parallel_run_ p && is_some (thread_of i p)
     then [not_joinable_error i] else []) /\
  logged WARNING (joinThread_trace i p)
  = (if is_some (thread_of i p) then [] else [no_thread_warning i]).
Proof.
  unfold joinThread_trace, is_joinable.
  destruct (thread_of i p) as [[[|]]|]; intros Hj; try discriminate.
  - destruct (parallel_run_ p); split; reflexivity.
  - rewrite andb_false_r. split; reflexivity.
Qed.

(** X15. What [joinThreads] reports when no thread is joinable, as after a
    first join: in parallel mode one error for every thread handle that
    exists, in sequential mode no error but one warning that it was asked
    to join at all; in either mode one warning for every handle that is
    null. *)
Theorem joinThreads_reports_unjoinable_threads (p : Pipeline.t) :
  (forall i, is_joinable (thread_of i p) = false) ->
  outcome (joinThreads p) = Ret tt /\
  final (joinThreads p) = p /\
  logged ERROR (trace (joinThreads p))
  = (if parallel_run_ p
     then map not_joinable_error
            (filter (fun i => is_some (thread_of i p)) all_threads)
     else []) /\
  logged WARNING (trace (joinThreads p))
  = (if parallel_run_ p then [] else [sequential_join_warning]) ++
    map no_thread_warning
      (filter (fun i => negb (is_some (thread_of i p))) all_threads).
Proof.
  intros Hj. rewrite (joinThreads_run p).
  unfold outcome, final, trace. cbn [fst snd].
  split; [reflexivity|]. split.
  { pose proof (Hj BackendThread) as Hb. pose proof (Hj FrontendThread) as Hf.
    pose proof (Hj MesherThread) as Hm. pose proof (Hj LcdThread) as Hl.
    pose proof (Hj VisualizerThread) as Hv. clear Hj.
    fields p. cbv [thread_of] in Hb, Hf, Hm, Hl, Hv.
    destruct bt as [[[|]]|], ft as [[[|]]|], mt as [[[|]]|],
      lt as [[[|]]|], vt as [[[|]]|]; try discriminate; reflexivity. }
  unfold joinThreads_trace, all_threads. cbn [flat_map filter].
  rewrite !logged_app.
  destruct (logged_joinThread_trace BackendThread p (Hj _)) as [-> ->].
  destruct (logged_joinThread_trace FrontendThread p (Hj _)) as [-> ->].
  destruct (logged_joinThread_trace MesherThread p (Hj _)) as [-> ->].
  destruct (logged_joinThread_trace LcdThread p (Hj _)) as [-> ->].
  destruct (logged_joinThread_trace VisualizerThread p (Hj _)) as [-> ->].
  destruct (parallel_run_ p), (is_some (thread_of BackendThread p)),
    (is_some (thread_of FrontendThread p)),
    (is_some (thread_of MesherThread p)),
    (is_some (thread_of LcdThread p)),
    (is_some (thread_of VisualizerThread p)); split; reflexivity.
Qed.

(** X16. [shutdown] discards nothing and forgets nothing: on a constructed
    pipeline it sets the shutdown flag, requests the shutdown of the data
    provider and of every constructed stage, shuts down the frontend and the
    backend input queue (and the display input queue when the display is
    constructed) with every queued item still inside, and leaves the health
    flag and the registered callback as they were; the thread handles are
    joined in parallel mode and untouched in sequential mode. *)
Theorem shutdown_keeps_queued_work (p : Pipeline.t) :
  has_core_modules p = true ->
  let q := final (shutdown p) in
  shutdown_ q = true /\
  is_backend_ok_ q = is_backend_ok_ p /\
  shutdown_pipeline_cb_ q = shutdown_pipeline_cb_ p /\
  parallel_run_ q = parallel_run_ p /\
  (forall m, module_of m q
             = option_map PipelineModule.shutdown (module_of m p)) /\
  (forall i, thread_of i q
             = if parallel_run_ p then joined (thread_of i p)
               else thread_of i p) /\
  stereo_frontend_input_queue_ q
  = ThreadsafeQueue.shutdown (stereo_frontend_input_queue_ p) /\
  backend_input_queue_ q
  = ThreadsafeQueue.shutdown (backend_input_queue_ p) /\
  display_input_queue_ q
  = (if is_some (display_module_ p)
     then ThreadsafeQueue.shutdown (display_input_queue_ p)
     else display_input_queue_ p).
Proof.
  intros Hcore q. subst q. rewrite (shutdown_run p Hcore).
  unfold final. cbn [fst snd]. clear Hcore.
  fields p. destruct par, di; vm_compute;
    repeat split;
    try (intros i; destruct i; by_cases_on_handles).
Qed.

End Handles.

(** ** The supervisory loop on any pipeline *)

Section Supervisor.
Context `{Payloads}.
Import Pipeline.
Variable while_asleep : nat -> Pipeline.t -> Pipeline.t.

Lemma bind_stops {A B : Type} (m : M Pipeline.t Event A)
    (k : A -> M Pipeline.t Event B) (p p1 : Pipeline.t)
    (r : Res A) (tr1 : list Event) :
  m p = (r, p1, tr1) ->
  (forall a, r <> Ret a) ->
  final (bind m k p) = p1 /\ trace (bind m k p) = tr1 /\
  forall b, outcome (bind m k p) <> Ret b.
Proof.
  intros Hm Hr. unfold bind. rewrite Hm.
  destruct r as [a|c| |]; [destruct (Hr a eq_refl)| | |];
    repeat split; intros b; discriminate.
Qed.

Lemma bind_OutOfFuel {A B : Type} (m : M Pipeline.t Event A)
    (k : A -> M Pipeline.t Event B) (p p1 : Pipeline.t) (tr1 : list Event) :
  m p = (OutOfFuel, p1, tr1) -> bind m k p = (OutOfFuel, p1, tr1).
Proof. intros Hm. unfold bind. rewrite Hm. reflexivity. Qed.

Lemma only_sleeps_app (ms : Z) (tr1 tr2 : list Event) :
  (forall e, In e (effects tr1) -> e = ESleep ms) ->
  (forall e, In e (effects tr2) -> e = ESleep ms) ->
  forall e, In e (effects (tr1 ++ tr2)) -> e = ESleep ms.
Proof.
  intros H1 H2 e. rewrite effects_app, in_app_iff. intros [He|He]; auto.
Qed.

Lemma only_sleeps_iteration (ms : Z) (ps : bool) (p : Pipeline.t) :
  forall e, In e (effects (poll_logs ps p ++ [ESleep ms])) -> e = ESleep ms.
Proof.
  intros e. rewrite effects_app, effects_poll_logs. cbn.
  intros [He|[]]. now symmetry.
Qed.

(** How the loop can end: through its condition, through the return of
    sequential mode, or not within the budget; it only ever sleeps. *)
Lemma poll_cases (ms : Z) (ps : bool) (fuel : nat) :
  forall n p,
    let x := poll while_asleep fuel n ms ps p in
    ((outcome x = Ret None /\ loop_condition (final x) = false) \/
     (outcome x = Ret (Some false) /\ parallel_run_ (final x) = false) \/
     outcome x = OutOfFuel) /\
    (forall e, In e (effects (trace x)) -> e = ESleep ms).
Proof.
  induction fuel as [|fuel IH]; intros n p x; subst x;
    destruct (loop_condition p) eqn:Hc.
  - rewrite (poll_step while_asleep 0 n ms ps p Hc).
    destruct (parallel_run_ (while_asleep n p)) eqn:Hp;
      rewrite after_triple; unfold outcome, final, trace; cbn [fst snd];
      rewrite app_nil_r; (split; [|apply only_sleeps_iteration]).
    + right. right. reflexivity.
    + right. left. split; [reflexivity|exact Hp].
  - rewrite (poll_exit while_asleep 0 n ms ps p Hc).
    split; [left; split; [reflexivity|exact Hc]|intros e []].
  - rewrite (poll_step while_asleep (S fuel) n ms ps p Hc).
    destruct (parallel_run_ (while_asleep n p)) eqn:Hp.
    + destruct (IH (S n) (while_asleep n p)) as [Hend Hsleep].
      unfold outcome, final, trace, after in *. cbn [fst snd].
      split; [exact Hend|].
      apply only_sleeps_app; [apply only_sleeps_iteration|exact Hsleep].
    + rewrite after_triple. unfold outcome, final, trace. cbn [fst snd].
      rewrite app_nil_r. split; [|apply only_sleeps_iteration].
      right. left. split; [reflexivity|exact Hp].
  - rewrite (poll_exit while_asleep (S fuel) n ms ps p Hc).
    split; [left; split; [reflexivity|exact Hc]|intros e []].
Qed.

Lemma shutdownWhenFinished_needs_core (fuel : nat) (ms : Z) (ps : bool)
    (p : Pipeline.t) :
  has_core_modules p = false ->
  exists c, outcome (shutdownWhenFinished while_asleep fuel ms ps p)
            = Abort c.
Proof.
  fields p. intros Hcore.
  destruct dp as [d|];
    [destruct fe as [f|];
     [destruct be as [b|];
      [discriminate Hcore|exists CHECK_vio_backend_module]
     |exists CHECK_vio_frontend_module]
    |exists CHECK_data_provider_module];
    reflexivity.
Qed.

Lemma outcome_after {A : Type} (tr : list Event)
    (x : Res A * Pipeline.t * list Event) :
  outcome (after tr x) = outcome x.
Proof. reflexivity. Qed.

(** The end of [shutdownWhenFinished]: [if (!shutdown_) shutdown();
    return true;] leaves the shutdown flag set and cannot return false. *)
Lemma finishing_leaves_down (q : Pipeline.t) :
  let x := bind (when (negb (shutdown_ q)) shutdown) (fun _ => ret true) q in
  is_down (final x) /\ outcome x <> Ret false.
Proof.
  intros x. subst x.
  assert (Hw : is_down (final (when (negb (shutdown_ q)) shutdown q))).
  { destruct (shutdown_ q) eqn:Hdown.
    - change (is_down q). exact Hdown.
    - apply shutdown_sets_flag. }
  revert Hw. unfold bind.
  generalize (when (negb (shutdown_ q)) shutdown q).
  intros [[[u|c| |] q'] tr'] Hw; split; first [exact Hw | discriminate].
Qed.

(** X12. What [shutdownWhenFinished] returns can be trusted: when it returns
    true the pipeline is shut down; when it returns false the pipeline runs
    in sequential mode and the call has done nothing but log and sleep, so
    it has not shut anything down. *)
Theorem shutdownWhenFinished_return_value (fuel : nat) (ms : Z) (ps : bool)
    (p : Pipeline.t) :
  let r := shutdownWhenFinished while_asleep fuel ms ps p in
  (outcome r = Ret true -> shutdown_ (final r) = true) /\
  (outcome r = Ret false ->
   parallel_run_ (final r) = false /\
   forall e, In e (effects (trace r)) -> e = ESleep ms).
Proof.
  intros r. subst r.
  destruct (has_core_modules p) eqn:Hcore.
  2:{ destruct (shutdownWhenFinished_needs_core fuel ms ps p Hcore)
        as [c Hc].
      rewrite Hc. split; discriminate. }
  destruct (poll while_asleep fuel 0 ms ps p) as [[o q] tr] eqn:Hpoll.
  pose proof (poll_cases ms ps fuel 0 p) as [Hend Hsleep].
  rewrite Hpoll in Hend, Hsleep.
  unfold outcome, final, trace in Hend, Hsleep. cbn [fst snd] in Hend, Hsleep.
  destruct Hend as [[Ho Hq]|[[Ho Hq]|Ho]]; subst o.
  - (* the loop is left through its condition *)
    pose proof Hcore as Hcore'. unfold has_core_modules in Hcore'.
    apply andb_prop in Hcore' as [Hcore' Hbe].
    apply andb_prop in Hcore' as [Hdp Hfe].
    unfold shutdownWhenFinished.
    erewrite bind_Ret by reflexivity.
    do 3 (erewrite bind_Ret by apply gets_run;
          erewrite bind_Ret by (apply CHECK_run; assumption)).
    erewrite bind_Ret by exact Hpoll.
    cbv beta iota.
    erewrite bind_Ret by reflexivity.
    erewrite bind_Ret by reflexivity.
    erewrite bind_Ret by apply gets_run.
    rewrite !final_after, !outcome_after.
    destruct (finishing_leaves_down q) as [Hset Hno].
    split; [intros _; exact Hset|intros Hr; destruct (Hno Hr)].
  - (* sequential mode returns from inside the loop *)
    erewrite shutdownWhenFinished_returns_early;
      [|exact Hcore|exact Hpoll].
    unfold outcome, final, trace. cbn [fst snd].
    split; [discriminate|]. intros _. split; [exact Hq|].
    change (effects (?e :: tr)) with (effects tr). exact Hsleep.
  - (* the budget ran out inside the loop *)
    pose proof Hcore as Hcore'. unfold has_core_modules in Hcore'.
    apply andb_prop in Hcore' as [Hcore' Hbe].
    apply andb_prop in Hcore' as [Hdp Hfe].
    unfold shutdownWhenFinished.
    erewrite bind_Ret by reflexivity.
    do 3 (erewrite bind_Ret by apply gets_run;
          erewrite bind_Ret by (apply CHECK_run; assumption)).
    match goal with
    | |- context [bind (poll _ _ _ _ _) ?k p] =>
        destruct (@bind_stops _ _ (poll while_asleep fuel 0 ms ps) k
                    p q OutOfFuel tr Hpoll)
          as (_ & _ & Hno); [intros a; discriminate|]
    end.
    unfold outcome, after in *. cbn [fst snd] in *.
    split; intros Hr; destruct (Hno _ Hr).
Qed.

Section FixedMode.
(** The run mode is fixed by the constructor; nothing that happens while the
    supervisor sleeps changes it. *)
Hypothesis asleep_keeps_mode :
  forall n q, parallel_run_ (while_asleep n q) = parallel_run_ q.

Lemma poll_while_busy (ms : Z) (ps : bool) (fuel : nat) :
  forall n p,
    parallel_run_ p = true ->
    (forall i, i <= fuel ->
               loop_condition (asleep while_asleep n i p) = true) ->
    poll while_asleep fuel n ms ps p =
    (OutOfFuel, asleep while_asleep n (S fuel) p,
     poll_trace while_asleep ms ps n (S fuel) p).
Proof.
  induction fuel as [|fuel IH]; intros n p Hpar Hbusy.
  - rewrite poll_step by (apply (Hbusy 0); lia).
    rewrite asleep_keeps_mode, Hpar, after_triple.
    cbn [asleep poll_trace]. now rewrite <- app_assoc.
  - rewrite poll_step by (apply (Hbusy 0); lia).
    rewrite asleep_keeps_mode, Hpar.
    rewrite (IH (S n) (while_asleep n p)).
    + rewrite after_triple. cbn [asleep poll_trace].
      now rewrite <- app_assoc.
    + now rewrite asleep_keeps_mode.
    + intros i Hi. apply (Hbusy (S i)). lia.
Qed.

(** X13. In parallel mode [shutdownWhenFinished] sleeps once for every
    evaluation that finds the loop condition true and does nothing else
    meanwhile.  At the first evaluation that finds it false (the pipeline
    initialised, every queue shut down or empty, every stage idle) it shuts
    the pipeline down and returns true; while the condition holds at every
    evaluation it does not return. *)
Theorem parallel_supervision_waits_until_idle
    (fuel k : nat) (ms : Z) (ps : bool) (p : Pipeline.t) :
  parallel_run_ p = true ->
  has_core_modules p = true ->
  (forall i, i < k -> loop_condition (asleep while_asleep 0 i p) = true) ->
  let q := asleep while_asleep 0 k p in
  let r := shutdownWhenFinished while_asleep fuel ms ps p in
  (k <= fuel -> loop_condition q = false -> has_core_modules q = true ->
   outcome r = Ret true /\
   final r = (if shutdown_ q then q else shutdown_state q) /\
   effects (trace r)
   = repeat (ESleep ms) k ++
     (if shutdown_ q then [] else shutdown_effects q)) /\
  (k = S fuel ->
   outcome r = OutOfFuel /\
   final r = q /\
   effects (trace r) = repeat (ESleep ms) k).
Proof.
  intros Hpar Hcore Hbusy q r. subst r. split.
  - intros Hfuel Hdone Hq.
    erewrite shutdownWhenFinished_leaves_loop;
      [|exact Hcore|exact Hq
       |now apply (poll_until while_asleep asleep_keeps_mode)].
    unfold outcome, final, trace. cbn [fst snd].
    split; [reflexivity|]. split; [reflexivity|].
    change (effects (?e :: ?tr)) with (effects tr).
    rewrite !effects_app, effects_poll_trace. f_equal.
    change (effects [?e1; ?e2]) with (@nil Event). cbn [app].
    destruct (shutdown_ q); [reflexivity|apply effects_shutdown_trace].
  - intros Hk.
    assert (Hpoll : poll while_asleep fuel 0 ms ps p =
                    (OutOfFuel, q, poll_trace while_asleep ms ps 0 k p)).
    { subst q. rewrite Hk. apply poll_while_busy; [exact Hpar|].
      intros i Hi. apply Hbusy. lia. }
    pose proof Hcore as Hcore'. unfold has_core_modules in Hcore'.
    apply andb_prop in Hcore' as [Hcore' Hbe].
    apply andb_prop in Hcore' as [Hdp Hfe].
    unfold shutdownWhenFinished.
    erewrite bind_Ret by reflexivity.
    do 3 (erewrite bind_Ret by apply gets_run;
          erewrite bind_Ret by (apply CHECK_run; assumption)).
    erewrite bind_OutOfFuel by exact Hpoll.
    rewrite !after_triple.
    unfold outcome, final, trace. cbn [fst snd app].
    split; [reflexivity|]. split; [reflexivity|].
    change (effects (?e :: ?tr)) with (effects tr).
    apply effects_poll_trace.
Qed.

End FixedMode.

(** X14. On a pipeline that is already shut down [shutdownWhenFinished]
    returns true at once: it logs, but it neither sleeps nor calls
    [shutdown] a second time, and the pipeline is left as it was. *)
Theorem shutdownWhenFinished_after_shutdown (fuel : nat) (ms : Z)
    (ps : bool) (p : Pipeline.t) :
  shutdown_ p = true ->
  has_core_modules p = true ->
  shutdownWhenFinished while_asleep fuel ms ps p =
  (Ret true, p,
   [ELog INFO "Shutting down VIO pipeline once processing has finished.";
    ELog INFO
      "Shutting down VIO, reason: input is empty and threads are idle.";
    ELog (VLOG 1) "shutdown_, VIO pipeline status"]).
Proof.
  intros Hdown Hcore.
  assert (Hc : loop_condition p = false)
    by (unfold loop_condition; now rewrite Hdown).
  erewrite shutdownWhenFinished_leaves_loop;
    [|exact Hcore|exact Hcore|now apply poll_exit].
  rewrite Hdown. reflexivity.
Qed.

End Supervisor.

(** ** Concrete runs of the further properties *)

Section FurtherConcreteRuns.
Import Pipeline.
Existing Instance numbered_payloads.


Lemma constructor_builds_enabled_stages_witness :
  outcome (new full_parallel_params all_stages_flags) = Ret tt /\
  (forall m,
      is_some (module_of m (final (new full_parallel_params all_stages_flags)))
      = enabled_by all_stages_flags m) /\
  (forall i,
      thread_of i (final (new full_parallel_params all_stages_flags))
      = if params_parallel_run_ full_parallel_params
           && enabled_by all_stages_flags (thread_module i)
        then Some Thread.started else None).
Proof.
  split; [reflexivity|].
  apply (@constructor_builds_enabled_stages numbered_payloads
           full_parallel_params all_stages_flags).
  reflexivity.
Defined.

Lemma first_shutdown_joins_the_launched_threads_witness :
  outcome (new full_parallel_params all_stages_flags) = Ret tt /\
  effects (trace (shutdown
                    (final (new full_parallel_params all_stages_flags))))
  = [EModuleShutdown DataProvider] ++
    stopThreads_effects (final (new full_parallel_params all_stages_flags)) ++
    (if params_parallel_run_ full_parallel_params
     then map EThreadJoin (threads_of all_stages_flags) else []).
Proof.
  split; [reflexivity|].
  apply (@first_shutdown_joins_the_launched_threads numbered_payloads
           full_parallel_params all_stages_flags).
  reflexivity.
Defined.

Lemma destructor_of_a_running_pipeline_witness :
  outcome (new full_parallel_params all_stages_flags) = Ret tt /\
  outcome (destructor (final (new full_parallel_params all_stages_flags)))
  = Ret tt /\
  shutdown_
    (final (destructor (final (new full_parallel_params all_stages_flags))))
  = true.
Proof.
  split; [reflexivity|].
  destruct (@destructor_of_a_running_pipeline numbered_payloads
              full_parallel_params all_stages_flags eq_refl)
    as (Hr & Hdown & _).
  split; [exact Hr|exact Hdown].
Defined.

Lemma spinViz_needs_the_display_witness :
  outcome (new full_parallel_params all_stages_flags) = Ret tt /\
  let p := final (new full_parallel_params all_stages_flags) in
  spinViz consuming_spin p
  = if FLAGS_visualize all_stages_flags
    then (Ret (fst (consuming_spin Display p)),
          snd (consuming_spin Display p), [EModuleSpin Display])
    else (Ret true, p, []).
Proof.
  split; [reflexivity|].
  apply (@spinViz_needs_the_display numbered_payloads consuming_spin
           full_parallel_params all_stages_flags).
  reflexivity.
Defined.

Lemma stopThreads_only_raises_stop_flags_witness :
  has_core_modules parallel_tracking_and_estimation = true /\
  outcome (stopThreads parallel_tracking_and_estimation) = Ret tt /\
  shutdown_ (final (stopThreads parallel_tracking_and_estimation))
  = shutdown_ parallel_tracking_and_estimation.
Proof.
  split; [reflexivity|].
  destruct (@stopThreads_only_raises_stop_flags numbered_payloads
              parallel_tracking_and_estimation eq_refl)
    as (Hr & Hdown & _).
  split; [exact Hr|exact Hdown].
Defined.

Lemma resume_does_not_restart_the_stages_witness :
  has_core_modules parallel_tracking_and_estimation = true /\
  outcome (resume (final (stopThreads parallel_tracking_and_estimation)))
  = Ret tt /\
  stereo_frontend_input_queue_
    (final (resume (final (stopThreads parallel_tracking_and_estimation))))
  = ThreadsafeQueue.resume
      (stereo_frontend_input_queue_ parallel_tracking_and_estimation).
Proof.
  split; [reflexivity|].
  destruct (@resume_does_not_restart_the_stages numbered_payloads
              parallel_tracking_and_estimation eq_refl)
    as (Hr & Hq & _).
  split; [exact Hr|exact Hq].
Defined.

Lemma spinOnce_parallel_only_queues_witness :
  parallel_run_ parallel_tracking_and_estimation = true /\
  shutdown_ parallel_tracking_and_estimation = false /\
  ThreadsafeQueue.isShutdown
    (stereo_frontend_input_queue_ parallel_tracking_and_estimation) = false /\
  spinOnce consuming_spin (Some 1%Z) parallel_tracking_and_estimation
  = (Ret tt, with_packet 1%Z parallel_tracking_and_estimation,
     [ELog (VLOG 2) "Push input payload to Frontend.";
      EPushBlockingIfFull 1%Z 5]).
Proof.
  do 3 (split; [reflexivity|]).
  apply (proj1 (@spinOnce_parallel_only_queues numbered_payloads
                  consuming_spin 1%Z parallel_tracking_and_estimation
                  eq_refl eq_refl eq_refl)).
  vm_compute. lia.
Defined.

Lemma shutdownWhenFinished_return_value_witness :
  outcome (shutdownWhenFinished no_progress 0 500 false
             finished_sequential_run) = Ret true /\
  shutdown_ (final (shutdownWhenFinished no_progress 0 500 false
                      finished_sequential_run)) = true.
Proof.
  split; [reflexivity|].
  apply (proj1 (@shutdownWhenFinished_return_value numbered_payloads
                  no_progress 0 500%Z false finished_sequential_run)).
  reflexivity.
Defined.

Lemma stages_settle_keeps_mode (n : nat) (q : Pipeline.t) :
  parallel_run_ (stages_settle n q) = parallel_run_ q.
Proof. reflexivity. Qed.

Lemma parallel_supervision_waits_until_idle_witness :
  (forall n q, parallel_run_ (stages_settle n q) = parallel_run_ q) /\
  parallel_run_ parallel_tracking_and_estimation = true /\
  has_core_modules parallel_tracking_and_estimation = true /\
  (forall i, i < 1 ->
     loop_condition (asleep stages_settle 0 i
                       parallel_tracking_and_estimation) = true) /\
  loop_condition (asleep stages_settle 0 1 parallel_tracking_and_estimation)
  = false /\
  has_core_modules
    (asleep stages_settle 0 1 parallel_tracking_and_estimation) = true /\
  let q := asleep stages_settle 0 1 parallel_tracking_and_estimation in
  let r := shutdownWhenFinished stages_settle 1 500 false
             parallel_tracking_and_estimation in
  outcome r = Ret true /\
  final r = (if shutdown_ q then q else shutdown_state q) /\
  effects (trace r)
  = repeat (ESleep 500) 1 ++
    (if shutdown_ q then [] else shutdown_effects q).
Proof.
  assert (Hbusy : forall i, i < 1 ->
            loop_condition (asleep stages_settle 0 i
                              parallel_tracking_and_estimation) = true).
  { intros i Hi. destruct i; [reflexivity|lia]. }
  split; [exact stages_settle_keeps_mode|].
  do 2 (split; [reflexivity|]).
  split; [exact Hbusy|]. do 2 (split; [reflexivity|]).
  apply (proj1 (@parallel_supervision_waits_until_idle numbered_payloads
                  stages_settle stages_settle_keeps_mode
                  1 1 500%Z false parallel_tracking_and_estimation
                  eq_refl eq_refl Hbusy)
           (le_n 1) eq_refl eq_refl).
Defined.

Lemma shutdownWhenFinished_after_shutdown_witness :
  shutdown_ (final (shutdown tracking_and_estimation_only)) = true /\
  has_core_modules (final (shutdown tracking_and_estimation_only)) = true /\
  shutdownWhenFinished no_progress 3 500 true
    (final (shutdown tracking_and_estimation_only))
  = (Ret true, final (shutdown tracking_and_estimation_only),
     [ELog INFO "Shutting down VIO pipeline once processing has finished.";
      ELog INFO
        "Shutting down VIO, reason: input is empty and threads are idle.";
      ELog (VLOG 1) "shutdown_, VIO pipeline status"]).
Proof.
  do 2 (split; [reflexivity|]).
  apply (@shutdownWhenFinished_after_shutdown numbered_payloads no_progress
           3 500%Z true (final (shutdown tracking_and_estimation_only))
           eq_refl eq_refl).
Defined.

Lemma joinThreads_reports_unjoinable_threads_witness :
  let p := final (shutdown parallel_tracking_and_estimation) in
  (forall i, is_joinable (thread_of i p) = false) /\
  outcome (joinThreads p) = Ret tt /\
  final (joinThreads p) = p /\
  logged ERROR (trace (joinThreads p))
  = (if parallel_run_ p
     then map not_joinable_error
            (filter (fun i => is_some (thread_of i p)) all_threads)
     else []) /\
  logged WARNING (trace (joinThreads p))
  = (if parallel_run_ p then [] else [sequential_join_warning]) ++
    map no_thread_warning
      (filter (fun i => negb (is_some (thread_of i p))) all_threads).
Proof.
  intros p.
  assert (Hj : forall i, is_joinable (thread_of i p) = false)
    by (intros i; destruct i; reflexivity).
  split; [exact Hj|].
  apply (@joinThreads_reports_unjoinable_threads numbered_payloads p Hj).
Defined.

Lemma shutdown_keeps_queued_work_witness :
  has_core_modules parallel_tracking_and_estimation = true /\
  shutdown_ (final (shutdown parallel_tracking_and_estimation)) = true /\
  is_backend_ok_ (final (shutdown parallel_tracking_and_estimation))
  = is_backend_ok_ parallel_tracking_and_estimation.
Proof.
  split; [reflexivity|].
  destruct (@shutdown_keeps_queued_work numbered_payloads
              parallel_tracking_and_estimation eq_refl)
    as (Hdown & Hok & _).
  split; [exact Hdown|exact Hok].
Defined.

End FurtherConcreteRuns.
